(** * Form builder: field editing and ordering engine

    A shallow embedding of the field editor ([FieldEditor], in
    src/app/components/AddFieldButton.tsx), of the read-only field view
    ([FormField], src/app/components/FormField.tsx) and of the parts of the
    preview ([FormPreview], src/app/components/FormHeader.tsx) that read the
    field model, followed by the properties of the specification that were
    checked against them.

    React state is modelled by explicit state passing: a handler takes the
    state of its component and returns the next state together with the
    calls it made to the callbacks of the parent component. *)

From Stdlib Require Import Ascii.
From stdpp Require Import base list strings pretty gmap.

Local Open Scope string_scope.

(** ** Data model (FormField.tsx, lines 6-29) *)

Inductive FieldType :=
  | multiple_choice
  | dropdown
  | free_text
  | checkbox
  | section
  | image
  | ranking.

#[global] Instance FieldType_eq_dec : EqDecision FieldType.
Proof. solve_decision. Defined.

(** [type Option = { id: string; value: string }].  The record is called
    [Option_] and its fields carry a prefix, since [id] and [value] are
    taken. *)
Record Option_ := mkOption {
  option_id : string;
  option_value : string;
}.

#[global] Instance Option_eq_dec : EqDecision Option_.
Proof. solve_decision. Defined.

(** [type FormFieldType]: the optional members ([?:]) are [option]s, [None]
    standing for [undefined]. *)
Record FormFieldType := mkField {
  field_id : string;
  field_type : FieldType;
  question : string;
  formattedQuestion : option string;
  required : bool;
  options : option (list Option_);
  description : option string;
  imageUrl : option string;
}.

#[global] Instance FormFieldType_eq_dec : EqDecision FormFieldType.
Proof. solve_decision. Defined.

(** Object spread with one overridden member, [{ ...prev, m: v }]. *)
Definition with_type (t : FieldType) (f : FormFieldType) : FormFieldType :=
  mkField (field_id f) t (question f) (formattedQuestion f) (required f)
          (options f) (description f) (imageUrl f).

Definition with_question (q : string) (f : FormFieldType) : FormFieldType :=
  mkField (field_id f) (field_type f) q (formattedQuestion f) (required f)
          (options f) (description f) (imageUrl f).

Definition with_formattedQuestion (h : option string) (f : FormFieldType)
  : FormFieldType :=
  mkField (field_id f) (field_type f) (question f) h (required f)
          (options f) (description f) (imageUrl f).

Definition with_required (r : bool) (f : FormFieldType) : FormFieldType :=
  mkField (field_id f) (field_type f) (question f) (formattedQuestion f) r
          (options f) (description f) (imageUrl f).

Definition with_options (o : option (list Option_)) (f : FormFieldType)
  : FormFieldType :=
  mkField (field_id f) (field_type f) (question f) (formattedQuestion f)
          (required f) o (description f) (imageUrl f).

Definition with_description (d : option string) (f : FormFieldType)
  : FormFieldType :=
  mkField (field_id f) (field_type f) (question f) (formattedQuestion f)
          (required f) (options f) d (imageUrl f).

Definition with_imageUrl (u : option string) (f : FormFieldType)
  : FormFieldType :=
  mkField (field_id f) (field_type f) (question f) (formattedQuestion f)
          (required f) (options f) (description f) u.

(** ** The JavaScript operations the handlers use *)

Module Js.

(** [arr.includes(x)] *)
Definition includes {A} `{EqDecision A} (arr : list A) (x : A) : bool :=
  bool_decide (x ∈ arr).

(** Truthiness of a string: only the empty string is falsy. *)
Definition truthy (s : string) : bool :=
  match s with "" => false | _ => true end.

(** [a || b] on strings. *)
Definition or (a b : string) : string := if truthy a then a else b.

(** [a || b] where [a : string | undefined] and [b : string]. *)
Definition or_undef (a : option string) (b : string) : string :=
  match a with Some s => or s b | None => b end.

(** [a || b] where both sides are [string | undefined]. *)
Definition or_opt (a b : option string) : option string :=
  match a with
  | Some s => if truthy s then Some s else b
  | None => b
  end.

(** [arr.splice(start, deleteCount, ...items)] for non-negative integer
    arguments: the removed elements and the array afterwards.  A [start]
    beyond the end is clamped to the length and a [deleteCount] reaching
    beyond the end removes what is there, which is what [take] and [drop]
    do. *)
Definition splice {A} (start deleteCount : nat) (items arr : list A)
  : list A * list A :=
  (take deleteCount (drop start arr),
   (take start arr ++ items ++ drop (start + deleteCount) arr)%list).

(** [const [x] = arr]: the first element, [undefined] when there is none. *)
Definition first {A} (arr : list A) : option A := head arr.

(** White space removed by [trim], on the byte strings of this model (the
    code points above 127 that [trim] also removes are not told apart). *)
Definition is_space (c : Ascii.ascii) : bool :=
  let n := Ascii.nat_of_ascii c in
  (Nat.leb 9 n && Nat.leb n 13) || Nat.eqb n 32.

(** Truthiness of [s.trim()]: some character of [s] is not white space. *)
Fixpoint trim_truthy (s : string) : bool :=
  match s with
  | EmptyString => false
  | String c s' => negb (is_space c) || trim_truthy s'
  end.

End Js.

(** ** Collaborators outside the components

    The rich-text surface ([editorRef.current], a content-editable element of
    the browser), the formatting and sanitising helpers of
    [../utils/richTextUtils] and the identifier generator of the [uuid]
    package are not part of the components; they are taken as an interface.
    [uuid n] is the identifier returned by the [n]-th call of [uuidv4()]. *)
Class Collaborators := {
  Surface : Type;
  innerHTML : Surface -> string;
  textContent : Surface -> string;
  applyFormatting : string -> string -> Surface -> Surface;
  sanitizeHtml : string -> string;
  uuid : nat -> string;
}.

(** What a component tells its parent: the callbacks of its props. *)
Inductive Emitted :=
  | FieldChange (updatedField : FormFieldType)
  | FieldChangeHole (updatedField : FormFieldType)
                    (updatedOptions : list (option Option_))
  | Save (field : FormFieldType)
  | Duplicate (field : FormFieldType)
  | Delete (id : string)
  | FieldDragStart (field : FormFieldType) (index : nat)
  | FieldDragOver (index : nat)
  | FieldDrop (index : nat).

(** ** Reordering by two splices

    The reorder of [onDrop] (AddFieldButton.tsx, lines 822-824) and of
    [handleRankingOptionDrop] (FormField.tsx, lines 216-218):
    [[
      const updatedOptions = [...field.options];
      const [draggedItem] = updatedOptions.splice(draggedOptionIndex, 1);
      updatedOptions.splice(dropIndex, 0, draggedItem);
    ]]
    When [draggedOptionIndex] is not an index of the array the first splice
    removes nothing, [draggedItem] is [undefined], and the second splice
    inserts that [undefined]: the result is an array of possibly undefined
    elements, [None] standing for [undefined]. *)
Definition reorder {A} (draggedIndex dropIndex : nat) (arr : list A)
  : list (option A) :=
  let '(removed, shortened) := Js.splice draggedIndex 1 [] arr in
  let draggedItem := Js.first removed in
  (Js.splice dropIndex 0 [draggedItem] (Some <$> shortened)).2.

(** The array as an array of defined elements, when it has no hole. *)
Fixpoint defined {A} (arr : list (option A)) : option (list A) :=
  match arr with
  | [] => Some []
  | Some x :: arr' => cons x <$> defined arr'
  | None :: _ => None
  end.

(** What a handler leaves behind: the next state of the component and the
    calls to the parent, or a component whose field holds an options array
    with an [undefined] element, which [FormFieldType] excludes. *)
Inductive Outcome (S : Type) :=
  | Next (s : S) (calls : list Emitted)
  | Broken (updatedOptions : list (option Option_)).
Arguments Next {S} s calls.
Arguments Broken {S} updatedOptions.

(** ** The field editor (AddFieldButton.tsx, lines 139-992) *)

Module FieldEditor.
Section Component.
Context `{Collaborators}.

(** The state of the component: [useState] cells and the two refs the
    handlers read.  The cells that only drive the presentation
    ([isTypeDropdownOpen], [imageUrl], [hasFocus], [editorHeight]) are
    left out.  [uuidCalls] counts the calls of [uuidv4()] so far. *)
Record State := mkState {
  editedField : FormFieldType;
  newOption : string;
  draggedOptionIndex : option nat;
  dropTargetOptionIndex : option nat;
  editorRef : option Surface;
  descriptionRef : option string;
  uuidCalls : nat;
}.

Definition setEditedField (f : FormFieldType) (st : State) : State :=
  mkState f (newOption st) (draggedOptionIndex st)
          (dropTargetOptionIndex st) (editorRef st) (descriptionRef st)
          (uuidCalls st).

Definition setNewOption (s : string) (st : State) : State :=
  mkState (editedField st) s (draggedOptionIndex st)
          (dropTargetOptionIndex st) (editorRef st) (descriptionRef st)
          (uuidCalls st).

Definition setDraggedOptionIndex (i : option nat) (st : State) : State :=
  mkState (editedField st) (newOption st) i (dropTargetOptionIndex st)
          (editorRef st) (descriptionRef st) (uuidCalls st).

Definition setDropTargetOptionIndex (i : option nat) (st : State) : State :=
  mkState (editedField st) (newOption st) (draggedOptionIndex st) i
          (editorRef st) (descriptionRef st) (uuidCalls st).

Definition setEditorRef (s : option Surface) (st : State) : State :=
  mkState (editedField st) (newOption st) (draggedOptionIndex st)
          (dropTargetOptionIndex st) s (descriptionRef st) (uuidCalls st).

Definition setUuidCalls (n : nat) (st : State) : State :=
  mkState (editedField st) (newOption st) (draggedOptionIndex st)
          (dropTargetOptionIndex st) (editorRef st) (descriptionRef st) n.

(** [useState({ ...field })] and the other initial values. *)
Definition init (field : FormFieldType) (editor : option Surface)
    (descr : option string) (calls : nat) : State :=
  mkState field "" None None editor descr calls.

(** What the mount effect (lines 157-171) puts on the surface. *)
Inductive Seed :=
  | SeedHTML (html : string)
  | SeedText (text : string).

Definition initialContent (f : FormFieldType) : Seed :=
  if Js.truthy (default "" (formattedQuestion f)) then
    SeedHTML (sanitizeHtml (default "" (formattedQuestion f)))
  else if Js.truthy (question f)
          && negb (bool_decide (question f = "Type your question here"))
  then SeedText (question f)
  else SeedText "".

(** [!prev.options || prev.options.length === 0] *)
Definition noOptions (f : FormFieldType) : bool :=
  match options f with
  | None => true
  | Some l => Nat.eqb (length l) 0
  end.

(** [prev.options] as a condition: any array, the empty one too, is
    truthy. *)
Definition hasOptionsArray (f : FormFieldType) : bool :=
  match options f with None => false | Some _ => true end.

Definition optionBearing : list FieldType :=
  [multiple_choice; dropdown; checkbox; ranking].

(** The updater of [handleTypeChange] (lines 200-237), with the count of
    [uuidv4()] calls threaded through. *)
Definition typeChange (type : FieldType) (prev : FormFieldType) (n : nat)
  : FormFieldType * nat :=
  if Js.includes optionBearing type && noOptions prev then
    (with_options
       (Some [mkOption (uuid n) "Option 1"; mkOption (uuid (S n)) "Option 2"])
       (with_type type prev),
     S (S n))
  else if bool_decide (type = section) && hasOptionsArray prev then
    (with_question "Section Title"
       (with_options (Some []) (with_type type prev)), n)
  else if bool_decide (type = image) then
    (with_imageUrl (Some (Js.or_undef (imageUrl prev) ""))
       (with_question "Image Question" (with_type type prev)), n)
  else (with_type type prev, n).

Definition handleTypeChange (type : FieldType) (st : State)
  : State * list Emitted :=
  let '(f, n) := typeChange type (editedField st) (uuidCalls st) in
  (setUuidCalls n (setEditedField f st), []).

(** The updater shared by [handleFormat] and [handleEditorChange]
    (lines 253-257 and 267-271). *)
Definition syncFromEditor (s : Surface) (prev : FormFieldType)
  : FormFieldType :=
  with_question (Js.or (textContent s) "")
    (with_formattedQuestion (Some (Js.or (innerHTML s) "")) prev).

(** [handleFormat] (lines 242-262). *)
Definition handleFormat (command value : string) (st : State)
  : State * list Emitted :=
  match editorRef st with
  | Some s =>
      let s' := applyFormatting command value s in
      (setEditedField (syncFromEditor s' (editedField st))
         (setEditorRef (Some s') st), [])
  | None => (st, [])
  end.

(** [handleEditorChange] (lines 265-276). *)
Definition handleEditorChange (st : State) : State * list Emitted :=
  match editorRef st with
  | Some s => (setEditedField (syncFromEditor s (editedField st)) st, [])
  | None => (st, [])
  end.

(** An [input] event: the browser has changed the content of the surface
    to [s'] and calls [handleEditorChange]. *)
Definition onInput (s' : Surface) (st : State) : State * list Emitted :=
  handleEditorChange (setEditorRef (Some s') st).

Definition isSpecialType (f : FormFieldType) : bool :=
  Js.includes [section; image] (field_type f).

Definition needsOptions (f : FormFieldType) : bool :=
  Js.includes optionBearing (field_type f).

(** [handleToggleRequired] (lines 311-318). *)
Definition handleToggleRequired (st : State) : State * list Emitted :=
  if Js.includes [section; image] (field_type (editedField st)) then (st, [])
  else
    (setEditedField
       (with_required (negb (required (editedField st))) (editedField st))
       st, []).

(** The toggle is rendered for the other types only (line 649); what it
    shows when rendered is the stored flag. *)
Definition requiredToggleShown (st : State) : option bool :=
  if negb (isSpecialType (editedField st))
  then Some (required (editedField st))
  else None.

(** [if (onFieldChange && prev.type === "ranking") onFieldChange(...)] *)
Definition mirrorIfRanking (onFieldChange : bool) (prev updated : FormFieldType)
  : list Emitted :=
  if onFieldChange && bool_decide (field_type prev = ranking)
  then [FieldChange updated] else [].

(** [handleOptionChange] (lines 320-336). *)
Definition handleOptionChange (onFieldChange : bool) (id value : string)
    (st : State) : State * list Emitted :=
  let prev := editedField st in
  let updatedField :=
    with_options
      ((fun l : list Option_ => (fun opt => if bool_decide (option_id opt = id)
                             then mkOption (option_id opt) value
                             else opt) <$> l) <$> options prev)
      prev in
  (setEditedField updatedField st,
   mirrorIfRanking onFieldChange prev updatedField).

(** [[...(prev.options || []), newOpt]] *)
Definition appendOption (newOpt : Option_) (prev : FormFieldType)
  : FormFieldType :=
  with_options (Some (default [] (options prev) ++ [newOpt])%list) prev.

(** [handleAddOption] (lines 338-372). *)
Definition handleAddOption (onFieldChange : bool) (st : State)
  : State * list Emitted :=
  let prev := editedField st in
  let n := uuidCalls st in
  if Js.trim_truthy (newOption st) then
    let newOpt := mkOption (uuid n) (newOption st) in
    let updatedField := appendOption newOpt prev in
    (setNewOption "" (setUuidCalls (S n) (setEditedField updatedField st)),
     mirrorIfRanking onFieldChange prev updatedField)
  else
    let newOpt :=
      mkOption (uuid n)
        ("Option " +:+ pretty (length (default [] (options prev)) + 1)) in
    let updatedField := appendOption newOpt prev in
    (setUuidCalls (S n) (setEditedField updatedField st),
     mirrorIfRanking onFieldChange prev updatedField).

(** [handleAddOtherOption] (lines 374-389). *)
Definition handleAddOtherOption (onFieldChange : bool) (st : State)
  : State * list Emitted :=
  let prev := editedField st in
  let n := uuidCalls st in
  let updatedField := appendOption (mkOption (uuid n) "Other") prev in
  (setUuidCalls (S n) (setEditedField updatedField st),
   mirrorIfRanking onFieldChange prev updatedField).

(** [handleDeleteOption] (lines 391-405). *)
Definition handleDeleteOption (onFieldChange : bool) (id : string)
    (st : State) : State * list Emitted :=
  let prev := editedField st in
  let updatedField :=
    with_options
      (filter (fun opt => option_id opt ≠ id) <$> options prev) prev in
  (setEditedField updatedField st,
   mirrorIfRanking onFieldChange prev updatedField).

(** The field handed over by [handleSave] and [handleDuplicateField]
    (lines 410-415 and 428-433). *)
Definition latestField (st : State) : FormFieldType :=
  match editorRef st with
  | Some s =>
      with_description
        (Js.or_opt (descriptionRef st) (description (editedField st)))
        (with_question (Js.or (textContent s) (question (editedField st)))
           (with_formattedQuestion (Some (innerHTML s)) (editedField st)))
  | None => editedField st
  end.

(** [handleSave] (lines 407-420). *)
Definition handleSave (st : State) : State * list Emitted :=
  (st, [Save (latestField st)]).

(** [handleDuplicateField] (lines 423-438). *)
Definition handleDuplicateField (onDuplicate : bool) (st : State)
  : State * list Emitted :=
  if onDuplicate then (st, [Duplicate (latestField st)]) else (st, []).

(** [handleDeleteField] (lines 441-445); [field] is the prop the editor
    was opened with. *)
Definition handleDeleteField (onDelete : bool) (field : FormFieldType)
    (st : State) : State * list Emitted :=
  if onDelete then (st, [Delete (field_id field)]) else (st, []).

(** The drag handlers of an option row (lines 804-917). *)
Definition onDragStart (i : nat) (st : State) : State * list Emitted :=
  (setDraggedOptionIndex (Some i) st, []).

Definition onDragOver (i : nat) (st : State) : State * list Emitted :=
  if needsOptions (editedField st) then
    match draggedOptionIndex st with
    | Some d =>
        if bool_decide (d ≠ i)
        then (setDropTargetOptionIndex (Some i) st, [])
        else (st, [])
    | None => (st, [])
    end
  else (st, []).

Definition onDragLeave (st : State) : State * list Emitted :=
  if needsOptions (editedField st)
  then (setDropTargetOptionIndex None st, [])
  else (st, []).

Definition onDragEnd (st : State) : State * list Emitted :=
  (setDropTargetOptionIndex None (setDraggedOptionIndex None st), []).

(** [onDrop] (lines 817-845).  The spread of [editedField.options!]
    throws when the field has no options array, before any state is set:
    nothing changes then. *)
Definition onDrop (onFieldChange : bool) (i : nat) (st : State)
  : Outcome State :=
  if needsOptions (editedField st) then
    match draggedOptionIndex st with
    | Some d =>
        if bool_decide (d ≠ i) then
          match options (editedField st) with
          | Some l =>
              let newOptions := reorder d i l in
              match defined newOptions with
              | Some l' =>
                  let updatedField :=
                    with_options (Some l') (editedField st) in
                  Next
                    (setDropTargetOptionIndex None
                       (setDraggedOptionIndex None
                          (setEditedField updatedField st)))
                    (if onFieldChange then [FieldChange updatedField]
                     else [])
              | None => Broken newOptions
              end
          | None => Next st []
          end
        else Next st []
    | None => Next st []
    end
  else Next st [].

(** What the user and the browser can do to the component. *)
Inductive Event :=
  | TypeChange (type : FieldType)
  | Format (command value : string)
  | Input (s' : Surface)
  | ToggleRequired
  | OptionChange (id value : string)
  | AddOption
  | AddOtherOption
  | DeleteOption (id : string)
  | DragStart (i : nat)
  | DragOver (i : nat)
  | DragLeave
  | Drop (i : nat)
  | DragEnd
  | SaveClick.

Definition step (onFieldChange : bool) (st : State) (e : Event)
  : Outcome State :=
  let next (r : State * list Emitted) := Next r.1 r.2 in
  match e with
  | TypeChange t => next (handleTypeChange t st)
  | Format c v => next (handleFormat c v st)
  | Input s' => next (onInput s' st)
  | ToggleRequired => next (handleToggleRequired st)
  | OptionChange id v => next (handleOptionChange onFieldChange id v st)
  | AddOption => next (handleAddOption onFieldChange st)
  | AddOtherOption => next (handleAddOtherOption onFieldChange st)
  | DeleteOption id => next (handleDeleteOption onFieldChange id st)
  | DragStart i => next (onDragStart i st)
  | DragOver i => next (onDragOver i st)
  | DragLeave => next (onDragLeave st)
  | Drop i => onDrop onFieldChange i st
  | DragEnd => next (onDragEnd st)
  | SaveClick => next (handleSave st)
  end.

(** A sequence of events, with the calls to the parent in order; it stops
    at a broken component. *)
Fixpoint run (onFieldChange : bool) (st : State) (es : list Event)
  : Outcome State :=
  match es with
  | [] => Next st []
  | e :: es' =>
      match step onFieldChange st e with
      | Next st' calls =>
          match run onFieldChange st' es' with
          | Next st'' calls' => Next st'' (calls ++ calls')%list
          | Broken raw => Broken raw
          end
      | Broken raw => Broken raw
      end
  end.

End Component.
End FieldEditor.

(** ** The read-only field view (FormField.tsx, lines 45-514) *)

Module FormField.
Section Component.
Context `{Collaborators}.

(** The props the handlers read; a callback is [true] when the parent
    passed it. *)
Record Props := mkProps {
  field : FormFieldType;
  index : nat;
  onDragStart : bool;
  onDragOver : bool;
  onDrop : bool;
  onFieldChange : bool;
}.

Record State := mkState {
  isDragging : bool;
  draggedOptionIndex : option nat;
  dropTargetOptionIndex : option nat;
}.

Definition init : State := mkState false None None.

Definition setIsDragging (b : bool) (st : State) : State :=
  mkState b (draggedOptionIndex st) (dropTargetOptionIndex st).

Definition setDraggedOptionIndex (i : option nat) (st : State) : State :=
  mkState (isDragging st) i (dropTargetOptionIndex st).

Definition setDropTargetOptionIndex (i : option nat) (st : State) : State :=
  mkState (isDragging st) (draggedOptionIndex st) i.

(** The handlers of the field itself (lines 77-133). *)
Definition handleDragStart (p : Props) (st : State) : State * list Emitted :=
  (setIsDragging true st,
   if onDragStart p then [FieldDragStart (field p) (index p)] else []).

Definition handleDragEnd (st : State) : State * list Emitted :=
  (setIsDragging false st, []).

Definition handleDragOver (p : Props) (st : State) : State * list Emitted :=
  (st, if onDragOver p then [FieldDragOver (index p)] else []).

Definition handleDrop (p : Props) (st : State) : State * list Emitted :=
  (st, if onDrop p then [FieldDrop (index p)] else []).

(** The handlers of the option rows (lines 136-233). *)
Definition handleRankingOptionDragStart (optionIndex : nat) (st : State)
  : State * list Emitted :=
  (setDraggedOptionIndex (Some optionIndex) st, []).

Definition handleRankingOptionDragOver (optionIndex : nat) (st : State)
  : State * list Emitted :=
  match draggedOptionIndex st with
  | None => (setDropTargetOptionIndex None st, [])
  | Some d =>
      if bool_decide (d = optionIndex)
      then (setDropTargetOptionIndex None st, [])
      else (setDropTargetOptionIndex (Some optionIndex) st, [])
  end.

Definition handleRankingOptionDragLeave (st : State)
  : State * list Emitted :=
  (setDropTargetOptionIndex None st, []).

Definition resetDrag (st : State) : State :=
  setDropTargetOptionIndex None (setDraggedOptionIndex None st).

Definition handleRankingOptionDrop (p : Props) (dropIndex : nat)
    (st : State) : State * list Emitted :=
  match draggedOptionIndex st with
  | None => (resetDrag st, [])
  | Some d =>
      if bool_decide (d = dropIndex) then (resetDrag st, [])
      else
        match options (field p) with
        | None => (resetDrag st, [])
        | Some l =>
            let updatedOptions := reorder d dropIndex l in
            (resetDrag st,
             if onFieldChange p then
               match defined updatedOptions with
               | Some l' => [FieldChange (with_options (Some l') (field p))]
               | None => [FieldChangeHole (field p) updatedOptions]
               end
             else [])
        end
  end.

(** The drag events that reach the component.  The grip of the field
    listens to [dragstart] and [dragend], its root element to [dragover]
    and [drop]; an option row listens to [dragover], [dragleave] and
    [drop], and the grip of an option to [dragstart] alone (lines 287-293,
    330-336, 359-365, 413-419): a [dragend] of an option drag finds no
    listener in the component. *)
Inductive Event :=
  | DragStart
  | DragEnd
  | DragOver
  | Drop
  | OptionDragStart (optionIndex : nat)
  | OptionDragOver (optionIndex : nat)
  | OptionDragLeave
  | OptionDrop (dropIndex : nat)
  | OptionDragEnd.

Definition step (p : Props) (st : State) (e : Event)
  : State * list Emitted :=
  match e with
  | DragStart => handleDragStart p st
  | DragEnd => handleDragEnd st
  | DragOver => handleDragOver p st
  | Drop => handleDrop p st
  | OptionDragStart i => handleRankingOptionDragStart i st
  | OptionDragOver i => handleRankingOptionDragOver i st
  | OptionDragLeave => handleRankingOptionDragLeave st
  | OptionDrop i => handleRankingOptionDrop p i st
  | OptionDragEnd => (st, [])
  end.

(** A sequence of events under props that stay as they are. *)
Fixpoint run (p : Props) (st : State) (es : list Event)
  : State * list Emitted :=
  match es with
  | [] => (st, [])
  | e :: es' =>
      let '(st', calls) := step p st e in
      let '(st'', calls') := run p st' es' in
      (st'', (calls ++ calls')%list)
  end.

(** What [renderQuestion] (lines 236-257) puts on the page: an element
    whose inner HTML is set, or an element with a text child. *)
Inductive QuestionView :=
  | InnerHTML (tag html : string)
  | TextChild (tag text : string).

Definition renderQuestion (f : FormFieldType) : QuestionView :=
  let tag := if bool_decide (field_type f = section) then "h2" else "p" in
  match formattedQuestion f with
  | Some fq =>
      if Js.truthy fq then InnerHTML tag (sanitizeHtml fq)
      else TextChild tag (question f)
  | None => TextChild tag (question f)
  end.

End Component.
End FormField.

(** The props of a field view whose parent passed every callback. *)
Definition viewProps (f : FormFieldType) (index : nat) : FormField.Props :=
  FormField.mkProps f index true true true true.

(** ** The preview (FormHeader.tsx, lines 85-330) *)

Module FormPreview.
Section Component.
Context `{Collaborators}.

(** [renderQuestion] (lines 119-141). *)
Definition renderQuestion (f : FormFieldType) : FormField.QuestionView :=
  let tag := if bool_decide (field_type f = section) then "h2" else "div" in
  match formattedQuestion f with
  | Some fq =>
      if Js.truthy fq then FormField.InnerHTML tag (sanitizeHtml fq)
      else FormField.TextChild tag (question f)
  | None => FormField.TextChild tag (question f)
  end.

(** Whether [renderField] (lines 146-306) shows the red asterisk of a
    required question: the cases of [section] and [image] have none. *)
Definition requiredMark (f : FormFieldType) : bool :=
  match field_type f with
  | multiple_choice | checkbox | free_text | dropdown | ranking => required f
  | section | image => false
  end.

End Component.
End FormPreview.

(** ** The specification's side *)

Module SpecModel.

(** The reorder in the specification's words (section 4.3): "remove the
    element at [draggedIndex] from the sequence, then insert it at position
    [j] of the already-shortened sequence". *)
Fixpoint remove_at {A} (i : nat) (l : list A) : list A :=
  match l, i with
  | [], _ => []
  | _ :: l', 0 => l'
  | x :: l', S i' => x :: remove_at i' l'
  end.

Fixpoint insert_at {A} (j : nat) (x : A) (l : list A) : list A :=
  match j, l with
  | 0, _ => x :: l
  | S _, [] => [x]
  | S j', y :: l' => y :: insert_at j' x l'
  end.

Definition spec_reorder {A} (d j : nat) (l : list A) : list A :=
  match l !! d with
  | Some x => insert_at j x (remove_at d l)
  | None => l
  end.

(** The option-bearing types of the data model (section 3). *)
Definition option_bearing (t : FieldType) : Prop :=
  t = multiple_choice \/ t = dropdown \/ t = checkbox \/ t = ranking.

(** "Options present": the field has an options list. *)
Definition options_present (f : FormFieldType) : Prop :=
  is_Some (options f).

(** *** A concrete set of collaborators

    Used to run the components on concrete inputs. *)

Definition is_alnum (c : Ascii.ascii) : bool :=
  let n := Ascii.nat_of_ascii c in
  (Nat.leb 48 n && Nat.leb n 57) || (Nat.leb 65 n && Nat.leb n 90)
  || (Nat.leb 97 n && Nat.leb n 122).

Definition lower (c : Ascii.ascii) : Ascii.ascii :=
  let n := Ascii.nat_of_ascii c in
  if Nat.leb 65 n && Nat.leb n 90 then Ascii.ascii_of_nat (n + 32) else c.

Fixpoint name_chars (s : string) : string :=
  match s with
  | EmptyString => EmptyString
  | String c s' =>
      if is_alnum c then String (lower c) (name_chars s') else EmptyString
  end.

(** The inside of a tag, between [<] and [>], cut down to [name] or
    [/name]. *)
Definition bare_tag (inside : string) : string * string :=
  match inside with
  | String "/"%char rest => ("/", name_chars rest)
  | _ => ("", name_chars inside)
  end.

(** Modelled from the spec: the allow-list of the sanitizer of
    [../utils/richTextUtils], which is not among the sources: "bold/italic/
    underline/strikethrough and basic structural tags" (section 4.5). *)
Definition allowed_tags : list string :=
  ["b"; "strong"; "i"; "em"; "u"; "s"; "strike"; "del";
   "br"; "p"; "div"; "span"].

(** Walks over HTML text; [tag] holds the inside of the tag being read.
    [keep] says what a complete tag becomes.  A tag that is never closed
    is dropped. *)
Fixpoint scan (keep : string -> string) (tag : option string) (s : string)
  : string :=
  match s with
  | EmptyString => EmptyString
  | String c s' =>
      match tag with
      | None =>
          if Ascii.eqb c "<"%char then scan keep (Some EmptyString) s'
          else String c (scan keep None s')
      | Some t =>
          if Ascii.eqb c ">"%char then keep t +:+ scan keep None s'
          else scan keep (Some (t +:+ String c EmptyString)) s'
      end
  end.

(** Modelled from the spec: the sanitizer of [../utils/richTextUtils],
    which is not among the sources: "a sanitizer taking raw HTML and
    returning HTML restricted to an allow-listed tag/attribute set"
    (section 6).  Tags outside the allow-list are removed, and the tags
    that stay lose their attributes. *)
Definition sanitize (html : string) : string :=
  scan (fun t =>
          let '(slash, name) := bare_tag t in
          if Js.includes allowed_tags name
          then "<" +:+ slash +:+ name +:+ ">" else "")
       None html.

(** Modelled from the spec: the plain-text content of HTML text, "the
    plain-text extraction of [formattedQuestion]" (section 8), as the text
    outside the tags. *)
Definition plain_text (html : string) : string :=
  scan (fun _ => "") None html.

(** Modelled from the spec: the formatting commands of the editing surface
    (section 4.5), for a surface that is its own HTML text and whose whole
    content is selected. *)
Definition format (command value html : string) : string :=
  if bool_decide (command = "bold") then "<b>" +:+ html +:+ "</b>"
  else if bool_decide (command = "italic") then "<i>" +:+ html +:+ "</i>"
  else if bool_decide (command = "strikeThrough")
  then "<strike>" +:+ html +:+ "</strike>"
  else if bool_decide (command = "underline") then "<u>" +:+ html +:+ "</u>"
  else if bool_decide (command = "removeFormat") then plain_text html
  else html.

(** Modelled from the spec: "an identifier generator producing
    universally-unique opaque ids on demand" (section 6), as the number of
    the call. *)
Definition numbered_id (n : nat) : string := "id-" +:+ pretty n.

Definition html_collaborators : Collaborators := {|
  Surface := string;
  innerHTML := fun s => s;
  textContent := plain_text;
  applyFormatting := format;
  sanitizeHtml := sanitize;
  uuid := numbered_id;
|}.

End SpecModel.

(** ** Further parts of the components *)

(** The labels of the editor (AddFieldButton.tsx, lines 447-458 and
    600-619). *)
Module FieldEditorLabels.

Definition renderOptionType (f : FormFieldType) : option string :=
  match field_type f with
  | multiple_choice => Some "radio"
  | checkbox => Some "checkbox"
  | ranking => Some "ranking"
  | dropdown | free_text | section | image => None
  end.

Definition getFieldTypeName (type : FieldType) : string :=
  match type with
  | multiple_choice => "Multiple choice"
  | dropdown => "Dropdown"
  | free_text => "Free text"
  | checkbox => "Checkbox"
  | section => "Section"
  | image => "Image"
  | ranking => "Ranking"
  end.

End FieldEditorLabels.

(** The labels and the number of the field view (FormField.tsx, lines
    431-453 and 478-482). *)
Module FormFieldLabels.

Definition getFieldTypeName (type : FieldType) : string :=
  match type with
  | multiple_choice => "Multiple Choice"
  | dropdown => "Dropdown"
  | free_text => "Free text"
  | checkbox => "Checkbox"
  | section => "Section"
  | image => "Image"
  | ranking => "Ranking"
  end.

Definition shouldShowNumber (f : FormFieldType) : bool :=
  negb (bool_decide (field_type f = section))
  && negb (bool_decide (field_type f = image)).

(** The number shown before the question, [index + 1], when there is one. *)
Definition shownNumber (f : FormFieldType) (index : nat) : option nat :=
  if shouldShowNumber f then Some (index + 1) else None.

End FormFieldLabels.

(** The numbering and the answers of the preview (FormHeader.tsx, lines
    85-116 and 143-149, and the [checked] attributes of lines 167 and 191). *)
Module FormPreviewAnswers.

(** [renderField] is called on the fields in order; [questionCounter] is a
    variable of the render, 0 at its start, and [++questionCounter] gives
    the number of a field that is neither a section nor an image. *)
Fixpoint numberFields (questionCounter : nat) (fields : list FormFieldType)
  : list (option nat) :=
  match fields with
  | [] => []
  | f :: fields' =>
      if negb (Js.includes [section; image] (field_type f))
      then Some (S questionCounter) :: numberFields (S questionCounter) fields'
      else None :: numberFields questionCounter fields'
  end.

Definition currentNumbers (fields : list FormFieldType) : list (option nat) :=
  numberFields 0 fields.

(** A value of the [answers] object: the handlers store a string or an array
    of strings. *)
Inductive Answer :=
  | Text (s : string)
  | Choices (l : list string).




(** [handleMultipleChoiceChange], [handleTextChange] and
    [handleDropdownChange] (lines 89-91 and 110-116). *)
Definition handleMultipleChoiceChange (fieldId value : string)
    (answers : gmap string Answer) : gmap string Answer :=
  <[fieldId := Text value]> answers.

Definition handleTextChange (fieldId value : string)
    (answers : gmap string Answer) : gmap string Answer :=
  <[fieldId := Text value]> answers.

Definition handleDropdownChange (fieldId value : string)
    (answers : gmap string Answer) : gmap string Answer :=
  <[fieldId := Text value]> answers.



(** [checked] of a radio button (line 167):
    [answers[field.id] === option.value]. *)
Definition radioChecked (answers : gmap string Answer)
    (fieldId value : string) : bool :=
  match answers !! fieldId with
  | Some (Text s) => bool_decide (s = value)
  | Some (Choices _) | None => false
  end.

End FormPreviewAnswers.

(** ** The header of the form (FormHeader.tsx, lines 3-74) *)

Module FormHeader.

Record State := mkState {
  isEditingDescription : bool;
  description : string;
}.

Definition init : State := mkState false "".

(** The members of a keyboard event that the handler reads. *)
Record KeyboardEvent := mkKey {
  key : string;
  ctrlKey : bool;
}.

Definition handleDescriptionClick (st : State) : State :=
  mkState true (description st).

Definition handleDescriptionChange (value : string) (st : State) : State :=
  mkState (isEditingDescription st) value.

Definition handleDescriptionKeyDown (e : KeyboardEvent) (st : State) : State :=
  if bool_decide (key e = "Escape") then mkState false (description st)
  else if bool_decide (key e = "Enter") && ctrlKey e
  then mkState false (description st)
  else st.

Definition handleDescriptionBlur (st : State) : State :=
  mkState false (description st).

(** The text of the paragraph shown when the description is not edited
    (line 68). *)
Definition shownDescription (st : State) : string :=
  Js.or (description st) "Add a description (optional)".

(** The events of the header.  The paragraph is there while the description
    is not edited, and the text area while it is (lines 46-71): a click
    reaches the component in the first case only, and a change, a key or a
    blur in the second only. *)
Inductive Event :=
  | Click
  | Change (value : string)
  | KeyDown (e : KeyboardEvent)
  | Blur.

Definition step (st : State) (e : Event) : State :=
  match e with
  | Click => if isEditingDescription st then st else handleDescriptionClick st
  | Change v =>
      if isEditingDescription st then handleDescriptionChange v st else st
  | KeyDown k =>
      if isEditingDescription st then handleDescriptionKeyDown k st else st
  | Blur => if isEditingDescription st then handleDescriptionBlur st else st
  end.

Definition run (st : State) (es : list Event) : State := foldl step st es.

End FormHeader.

(** ** Where the elements of a reordered array come from *)

(** The index, before a drag from [d] to [j], of the element that is at
    index [k] afterwards. *)
Definition source_index (d j k : nat) : nat :=
  if bool_decide (k = j) then d
  else if bool_decide (d <= k < j) then S k
  else if bool_decide (j < k <= d) then k - 1
  else k.

(** The ids of the options of a field. *)
Definition option_ids (f : FormFieldType) : list string :=
  option_id <$> default [] (options f).


(** The ids of the options of the edited field are pairwise different and
    each of them was returned by one of the calls of [uuidv4()] so far. *)
Definition ids_generated `{Collaborators} (st : FieldEditor.State) : Prop :=
  NoDup (option_ids (FieldEditor.editedField st))
  /\ Forall (fun i => exists k, k < FieldEditor.uuidCalls st /\ i = uuid k)
       (option_ids (FieldEditor.editedField st)).

(** The events of the editor between the start and the end of a drag that do
    not drop: hovering over a row and leaving it. *)
Definition is_hover `{Collaborators} (e : FieldEditor.Event) : bool :=
  match e with
  | FieldEditor.DragOver _ | FieldEditor.DragLeave => true
  | _ => false
  end.

(** A field that the preview numbers: neither a section nor an image. *)
Definition numbered (f : FormFieldType) : Prop :=
  Js.includes [section; image] (field_type f) = false.

(** * Properties *)

Import SpecModel.

(** ** Reordering *)

Section Reorder.
Context {A : Type}.
Implicit Types (l : list A) (x : A) (d j : nat).

Lemma remove_at_delete d l : remove_at d l = delete d l.
Proof.
  revert d; induction l as [|y l IH]; intros [|d]; simpl; try done.
  by rewrite IH.
Qed.

Lemma insert_at_take_drop j x l :
  insert_at j x l = (take j l ++ x :: drop j l)%list.
Proof.
  revert l; induction j as [|j IH]; intros [|y l]; simpl; try done.
  by rewrite IH.
Qed.

Lemma defined_fmap_Some l : defined (Some <$> l) = Some l.
Proof.
  induction l as [|y l IH]; [done|].
  rewrite fmap_cons. cbn [defined]. by rewrite IH.
Qed.

Lemma defined_app_None (l1 l2 : list (option A)) :
  defined (l1 ++ None :: l2) = None.
Proof.
  induction l1 as [|[y|] l1 IH]; cbn [defined app]; try done.
  by rewrite IH.
Qed.

(** The array after the two splices, whatever the indices. *)
Lemma reorder_unfold d j l :
  reorder d j l
  = (take j (Some <$> delete d l) ++ (l !! d) :: drop j (Some <$> delete d l))%list.
Proof.
  unfold reorder, Js.splice, Js.first; simpl.
  rewrite Nat.add_0_r, Nat.add_1_r, <- delete_take_drop.
  f_equal. f_equal.
  rewrite head_lookup, lookup_take_lt by lia.
  by rewrite lookup_drop, Nat.add_0_r.
Qed.

Lemma reorder_in_range d j l x :
  l !! d = Some x ->
  reorder d j l = Some <$> insert_at j x (remove_at d l).
Proof.
  intros Hx. rewrite reorder_unfold, Hx, insert_at_take_drop, remove_at_delete.
  by rewrite fmap_app, fmap_cons, fmap_take, fmap_drop.
Qed.

Lemma reorder_defined d j l :
  d < length l -> defined (reorder d j l) = Some (spec_reorder d j l).
Proof.
  intros Hd. destruct (lookup_lt_is_Some_2 l d Hd) as [x Hx].
  unfold spec_reorder. rewrite Hx, (reorder_in_range _ _ _ _ Hx).
  apply defined_fmap_Some.
Qed.

(** Out of range the dragged item is [undefined] and the array gets a
    hole. *)
Lemma reorder_out_of_range d j l :
  length l <= d -> defined (reorder d j l) = None.
Proof.
  intros Hd. rewrite reorder_unfold, (lookup_ge_None_2 l d Hd).
  apply defined_app_None.
Qed.

Lemma spec_reorder_Permutation d j l : spec_reorder d j l ≡ₚ l.
Proof.
  unfold spec_reorder. destruct (l !! d) as [x|] eqn:Hx; [|done].
  rewrite insert_at_take_drop, remove_at_delete.
  rewrite <- Permutation_middle, take_drop.
  symmetry. by apply delete_Permutation.
Qed.

Lemma insert_at_lookup j x l :
  j <= length l -> insert_at j x l !! j = Some x.
Proof.
  revert l; induction j as [|j IH]; intros [|y l] Hj; simpl in *;
    try done; try lia.
  apply IH. lia.
Qed.

(** The dragged element sits at the drop index afterwards. *)
Lemma spec_reorder_lookup d j l x :
  l !! d = Some x -> j < length l -> spec_reorder d j l !! j = Some x.
Proof.
  intros Hx Hj. unfold spec_reorder. rewrite Hx.
  apply insert_at_lookup. rewrite remove_at_delete, length_delete by eauto.
  lia.
Qed.

End Reorder.

(** ** The type-change transition *)

Section TypeChange.
Context `{Collaborators}.
Import FieldEditor.

Lemma includes_optionBearing t :
  Js.includes optionBearing t
  = match t with
    | multiple_choice | dropdown | checkbox | ranking => true
    | free_text | section | image => false
    end.
Proof. by destruct t. Qed.

Lemma includes_special t :
  Js.includes [section; image] t
  = match t with section | image => true | _ => false end.
Proof. by destruct t. Qed.

Lemma option_bearing_includes t :
  option_bearing t <-> Js.includes optionBearing t = true.
Proof.
  rewrite includes_optionBearing. unfold option_bearing.
  destruct t; split; intros Ht; try done; auto;
    by destruct Ht as [?|[?|[?|?]]].
Qed.

Lemma noOptions_spec f :
  noOptions f = true <-> options f = None \/ options f = Some [].
Proof.
  unfold noOptions.
  destruct (options f) as [[|o l]|]; simpl; split; intros Hno; auto;
    try done; by destruct Hno.
Qed.

(** The first case of the transition: defaults for a field without
    options. *)
Lemma typeChange_defaults t prev n :
  Js.includes optionBearing t = true -> noOptions prev = true ->
  typeChange t prev n
  = (with_options
       (Some [mkOption (uuid n) "Option 1"; mkOption (uuid (S n)) "Option 2"])
       (with_type t prev), S (S n)).
Proof. intros Ht Hno. unfold typeChange. by rewrite Ht, Hno. Qed.

(** The second case: among option-bearing types the options stay. *)
Lemma typeChange_keeps t prev n :
  Js.includes optionBearing t = true -> noOptions prev = false ->
  typeChange t prev n = (with_type t prev, n).
Proof.
  intros Ht Hno. unfold typeChange. rewrite Ht, Hno. simpl.
  rewrite includes_optionBearing in Ht. by destruct t.
Qed.

Lemma typeChange_section prev n :
  typeChange section prev n
  = if hasOptionsArray prev
    then (with_question "Section Title"
            (with_options (Some []) (with_type section prev)), n)
    else (with_type section prev, n).
Proof. unfold typeChange. simpl. by destruct (hasOptionsArray prev). Qed.

Lemma typeChange_image prev n :
  typeChange image prev n
  = (with_imageUrl (Some (Js.or_undef (imageUrl prev) ""))
       (with_question "Image Question" (with_type image prev)), n).
Proof. done. Qed.

Lemma typeChange_free_text prev n :
  typeChange free_text prev n = (with_type free_text prev, n).
Proof. done. Qed.

Lemma or_undef_idem (u : option string) :
  Js.or_undef (Some (Js.or_undef u "")) "" = Js.or_undef u "".
Proof. destruct u as [[|c s]|]; done. Qed.

(** Setting the type to the current one changes nothing for a free-text
    field and for an option-bearing field that has an option. *)
Lemma typeChange_same_type_stable (prev : FormFieldType) (n : nat) :
  field_type prev = free_text
  \/ (Js.includes optionBearing (field_type prev) = true
      /\ noOptions prev = false) ->
  typeChange (field_type prev) prev n = (prev, n).
Proof.
  intros [Ht|[Ht Hno]].
  - rewrite Ht, typeChange_free_text. rewrite <- Ht. by destruct prev.
  - rewrite typeChange_keeps by done. by destruct prev.
Qed.

End TypeChange.

Lemma numbered_id_inj : Inj (=) (=) numbered_id.
Proof.
  intros a b Hab. unfold numbered_id in Hab. simpl in Hab.
  injection Hab as Hab. by apply (inj pretty).
Qed.

(** C1 (as stated, refuted): a checkbox field with one option, changed to
    free text, still has its options list, although free text is no
    option-bearing type. *)
Lemma C1_options_survive_free_text :
  let prev :=
    mkField "f1" checkbox "Q" None false (Some [mkOption "a" "A"]) None None in
  let next := (@FieldEditor.typeChange html_collaborators free_text prev 0).1 in
  ~ (options_present next <-> option_bearing free_text).
Proof.
  simpl. intros [Hpresent _].
  destruct Hpresent as [?|[?|[?|?]]]; try done.
  by eexists.
Qed.

(** C1 (amended): after a type change the field has a non-empty options list
    when the new type is multiple_choice, dropdown, checkbox or ranking; a
    change to section leaves an empty list where there was a list and no list
    where there was none; a change to free_text or image leaves the options
    of the field as they were. *)
Theorem C1_type_change_options `{Collaborators}
    (prev : FormFieldType) (t : FieldType) (n : nat) :
  let next := (FieldEditor.typeChange t prev n).1 in
  match t with
  | multiple_choice | dropdown | checkbox | ranking =>
      exists o l, options next = Some (o :: l)
  | section => options next = (fun _ => []) <$> options prev
  | free_text | image => options next = options prev
  end.
Proof.
  assert (Hbearing : Js.includes FieldEditor.optionBearing t = true ->
            exists o l, options (FieldEditor.typeChange t prev n).1 = Some (o :: l)).
  { intros Ht. destruct (FieldEditor.noOptions prev) eqn:Hno.
    - rewrite typeChange_defaults by done. simpl. eauto.
    - rewrite typeChange_keeps by done. simpl.
      unfold FieldEditor.noOptions in Hno.
      destruct (options prev) as [[|o l]|]; try done. eauto. }
  destruct t; simpl; try (by apply Hbearing); try done.
  rewrite typeChange_section. unfold FieldEditor.hasOptionsArray.
  by destruct (options prev) eqn:Hopt.
Qed.

(** C2: changing the type of a field whose options list is absent or empty to
    multiple_choice, dropdown, checkbox or ranking gives the field exactly the
    two options "Option 1" and "Option 2", in that order; their ids are the
    results of two new calls of the identifier generator, which differ from
    each other and from every id generated before, the generator never
    returning an id twice. *)
Theorem C2_default_options `{Collaborators}
    (st : FieldEditor.State) (t : FieldType) :
  Inj (=) (=) uuid ->
  option_bearing t ->
  options (FieldEditor.editedField st) = None
  \/ options (FieldEditor.editedField st) = Some [] ->
  let st' := (FieldEditor.handleTypeChange t st).1 in
  let n := FieldEditor.uuidCalls st in
  options (FieldEditor.editedField st')
  = Some [mkOption (uuid n) "Option 1"; mkOption (uuid (S n)) "Option 2"]
  /\ field_type (FieldEditor.editedField st') = t
  /\ FieldEditor.uuidCalls st' = S (S n)
  /\ uuid n ≠ uuid (S n)
  /\ forall k, k < n -> uuid k ≠ uuid n /\ uuid k ≠ uuid (S n).
Proof.
  intros Hinj Ht Hno. simpl.
  apply option_bearing_includes in Ht. apply noOptions_spec in Hno.
  unfold FieldEditor.handleTypeChange.
  rewrite typeChange_defaults by done. simpl.
  split; [done|]. split; [done|]. split; [done|]. split.
  - intros Heq. apply Hinj in Heq. lia.
  - intros k Hk. split; intros Heq; apply Hinj in Heq; lia.
Qed.

Lemma C2_default_options_witness :
  let st :=
    @FieldEditor.init html_collaborators
      (mkField "f1" free_text "Q" None false None None None) (Some "Q") None 3 in
  let st' := (FieldEditor.handleTypeChange checkbox st).1 in
  options (FieldEditor.editedField st')
  = Some [mkOption "id-3" "Option 1"; mkOption "id-4" "Option 2"]
  /\ field_type (FieldEditor.editedField st') = checkbox
  /\ FieldEditor.uuidCalls st' = 5
  /\ "id-3" ≠ "id-4"
  /\ forall k, k < 3 -> numbered_id k ≠ "id-3" /\ numbered_id k ≠ "id-4".
Proof.
  apply (@C2_default_options html_collaborators
           (@FieldEditor.init html_collaborators
              (mkField "f1" free_text "Q" None false None None None)
              (Some "Q") None 3) checkbox).
  - exact numbered_id_inj.
  - unfold option_bearing. right. right. left. reflexivity.
  - left. reflexivity.
Defined.

(** C7 (as stated, refuted): a checkbox field whose options list is empty
    (all options deleted) and whose type is set to checkbox again gets the two
    default options, with two newly generated ids. *)
Lemma C7_same_type_adds_defaults :
  let f := mkField "f1" checkbox "Q" None false (Some []) None None in
  @FieldEditor.typeChange html_collaborators (field_type f) f 0
  = (with_options
       (Some [mkOption "id-0" "Option 1"; mkOption "id-1" "Option 2"]) f, 2)
  /\ @FieldEditor.typeChange html_collaborators (field_type f) f 0 ≠ (f, 0).
Proof. split; [reflexivity | discriminate]. Qed.

(** C7 (amended): for every field and every target type, applying the type
    change a second time with the same target, to the field the first
    application produced, is a no-op: the field stays what it was after the
    first application and no identifier is generated. *)
Theorem C7_type_change_idempotent `{Collaborators}
    (prev : FormFieldType) (t : FieldType) (n n' : nat) :
  let once := (FieldEditor.typeChange t prev n).1 in
  FieldEditor.typeChange t once n' = (once, n').
Proof.
  cbv zeta.
  destruct (Js.includes FieldEditor.optionBearing t) eqn:Ht.
  - destruct (FieldEditor.noOptions prev) eqn:Hno.
    + rewrite (typeChange_defaults t prev) by done. simpl.
      by rewrite typeChange_keeps.
    + rewrite (typeChange_keeps t prev) by done. simpl.
      by rewrite typeChange_keeps.
  - rewrite includes_optionBearing in Ht. destruct t; try done.
    + rewrite (typeChange_section prev).
      destruct (FieldEditor.hasOptionsArray prev) eqn:Harr; simpl.
      * by rewrite typeChange_section.
      * rewrite typeChange_section.
        unfold FieldEditor.hasOptionsArray in *. simpl.
        by destruct (options prev).
    + rewrite !typeChange_image.
      unfold with_imageUrl, with_question, with_type.
      cbn [fst imageUrl field_id field_type question formattedQuestion
           required options description].
      by rewrite or_undef_idem.
Qed.

(** ** The required flag *)

(** C8: for a field of type section or image the required flag is not read:
    the preview shows no mark and the editor no toggle, whatever is stored,
    and [handleToggleRequired] leaves the state of the editor as it is; for a
    field of any other type [handleToggleRequired] inverts the stored flag
    and changes nothing else, and both the preview and the toggle show the
    stored flag. *)
Theorem C8_required_toggle `{Collaborators} (st : FieldEditor.State) :
  let f := FieldEditor.editedField st in
  match field_type f with
  | section | image =>
      FormPreview.requiredMark f = false
      /\ FieldEditor.requiredToggleShown st = None
      /\ FieldEditor.handleToggleRequired st = (st, [])
  | multiple_choice | dropdown | free_text | checkbox | ranking =>
      FieldEditor.handleToggleRequired st
      = (FieldEditor.setEditedField (with_required (negb (required f)) f) st, [])
      /\ required (FieldEditor.editedField (FieldEditor.handleToggleRequired st).1)
         = negb (required f)
      /\ FormPreview.requiredMark f = required f
      /\ FieldEditor.requiredToggleShown st = Some (required f)
  end.
Proof.
  simpl.
  unfold FieldEditor.handleToggleRequired, FieldEditor.requiredToggleShown,
    FieldEditor.isSpecialType, FormPreview.requiredMark.
  rewrite includes_special.
  by destruct (field_type (FieldEditor.editedField st)).
Qed.

(** ** Dropping an option *)

Section Drop.
Context `{Collaborators}.

(** The drop of the field view, for a dragged index within the options. *)
Lemma view_drop (l : list Option_) (d j : nat) (f : FormFieldType)
    (index : nat) (view : FormField.State) :
  d ≠ j -> d < length l ->
  FormField.handleRankingOptionDrop
    (viewProps (with_options (Some l) f) index) j
    (FormField.setDraggedOptionIndex (Some d) view)
  = (FormField.mkState (FormField.isDragging view) None None,
     [FieldChange (with_options (Some (spec_reorder d j l)) f)]).
Proof.
  intros Hdj Hd. unfold FormField.handleRankingOptionDrop. simpl.
  rewrite bool_decide_eq_false_2 by done.
  by rewrite reorder_defined.
Qed.

(** The drop of the editor, likewise; the parent is told when it passed
    [onFieldChange], whatever the type of the field. *)
Lemma editor_drop (onFieldChange : bool) (l : list Option_) (d j : nat)
    (f : FormFieldType) (editor : FieldEditor.State) :
  d ≠ j -> d < length l -> option_bearing (field_type f) ->
  let moved := with_options (Some (spec_reorder d j l)) f in
  FieldEditor.onDrop onFieldChange j
    (FieldEditor.setDraggedOptionIndex (Some d)
       (FieldEditor.setEditedField (with_options (Some l) f) editor))
  = Next
      (FieldEditor.setDropTargetOptionIndex None
         (FieldEditor.setDraggedOptionIndex None
            (FieldEditor.setEditedField moved editor)))
      (if onFieldChange then [FieldChange moved] else []).
Proof.
  intros Hdj Hd Ht. apply option_bearing_includes in Ht.
  unfold FieldEditor.onDrop, FieldEditor.needsOptions. simpl.
  rewrite Ht, bool_decide_eq_true_2 by done.
  by rewrite reorder_defined.
Qed.

End Drop.

(** C3: with an active drag of the option at index [d] and a drop on index
    [j] other than [d], the drop handlers of the field view and of the editor
    store the sequence obtained by removing the element at [d] and inserting
    it at position [j] of the shortened sequence, and hand it to the parent;
    on [a, b, c, e], dragging index 0 to index 2 gives [b, c, a, e] and
    dragging index 3 to index 1 gives [a, e, b, c]. *)
Theorem C3_drop_removes_then_inserts `{Collaborators}
    (l : list Option_) (d j : nat) (f : FormFieldType) (index : nat)
    (view : FormField.State) (editor : FieldEditor.State)
    (a b c e : Option_) :
  d ≠ j -> d < length l -> option_bearing (field_type f) ->
  exists x, l !! d = Some x /\
    let moved := with_options (Some (insert_at j x (remove_at d l))) f in
    defined (reorder d j l) = Some (insert_at j x (remove_at d l))
    /\ FormField.handleRankingOptionDrop
         (viewProps (with_options (Some l) f) index) j
         (FormField.setDraggedOptionIndex (Some d) view)
       = (FormField.mkState (FormField.isDragging view) None None,
          [FieldChange moved])
    /\ FieldEditor.onDrop true j
         (FieldEditor.setDraggedOptionIndex (Some d)
            (FieldEditor.setEditedField (with_options (Some l) f) editor))
       = Next
           (FieldEditor.setDropTargetOptionIndex None
              (FieldEditor.setDraggedOptionIndex None
                 (FieldEditor.setEditedField moved editor)))
           [FieldChange moved]
    /\ defined (reorder 0 2 [a; b; c; e]) = Some [b; c; a; e]
    /\ defined (reorder 3 1 [a; b; c; e]) = Some [a; e; b; c].
Proof.
  intros Hdj Hd Ht.
  destruct (lookup_lt_is_Some_2 l d Hd) as [x Hx].
  exists x. split; [done|]. cbv zeta.
  assert (Hspec : spec_reorder d j l = insert_at j x (remove_at d l)).
  { unfold spec_reorder. by rewrite Hx. }
  rewrite <- Hspec.
  split; [by apply reorder_defined|].
  split; [by apply view_drop|].
  split; [by apply (editor_drop true)|].
  done.
Qed.

Lemma C3_drop_removes_then_inserts_witness :
  let A := mkOption "a" "A" in
  let B := mkOption "b" "B" in
  let C := mkOption "c" "C" in
  let D := mkOption "d" "D" in
  let f := mkField "f1" ranking "Q" None false None None None in
  exists x, [A; B; C; D] !! 0 = Some x /\
    defined (reorder 0 2 [A; B; C; D])
    = Some (insert_at 2 x (remove_at 0 [A; B; C; D])).
Proof.
  intros A B C D f.
  destruct (@C3_drop_removes_then_inserts html_collaborators
              [A; B; C; D] 0 2 f 0 FormField.init
              (@FieldEditor.init html_collaborators f None None 0) A B C D)
    as (x & Hx & Hmoved & _).
  - lia.
  - simpl. lia.
  - unfold option_bearing. simpl. right. right. right. reflexivity.
  - exists x. split; [exact Hx | exact Hmoved].
Defined.

(** C10: for a drop with dragged index [d] and target index [j], different
    and both within the options, the options list that the field view and the
    editor store is a permutation of the original one: same length, same
    options with the same ids and values, none duplicated, lost or altered;
    when the ids of the options are distinct the order has changed. *)
Theorem C10_drop_permutes `{Collaborators}
    (l : list Option_) (d j : nat) (f : FormFieldType) (index : nat)
    (view : FormField.State) (editor : FieldEditor.State) :
  d ≠ j -> d < length l -> j < length l -> option_bearing (field_type f) ->
  exists l',
    FormField.handleRankingOptionDrop
      (viewProps (with_options (Some l) f) index) j
      (FormField.setDraggedOptionIndex (Some d) view)
    = (FormField.mkState (FormField.isDragging view) None None,
       [FieldChange (with_options (Some l') f)])
    /\ FieldEditor.onDrop true j
         (FieldEditor.setDraggedOptionIndex (Some d)
            (FieldEditor.setEditedField (with_options (Some l) f) editor))
       = Next
           (FieldEditor.setDropTargetOptionIndex None
              (FieldEditor.setDraggedOptionIndex None
                 (FieldEditor.setEditedField (with_options (Some l') f)
                    editor)))
           [FieldChange (with_options (Some l') f)]
    /\ l' ≡ₚ l
    /\ length l' = length l
    /\ (forall o, o ∈ l' <-> o ∈ l)
    /\ (NoDup (option_id <$> l) -> NoDup (option_id <$> l') /\ l' ≠ l).
Proof.
  intros Hdj Hd Hj Ht. exists (spec_reorder d j l).
  pose proof (spec_reorder_Permutation d j l) as Hperm.
  split; [by apply view_drop|].
  split; [by apply (editor_drop true)|].
  split; [done|].
  split; [by rewrite Hperm|].
  split; [intros o; by rewrite Hperm|].
  intros Hnodup. split; [by rewrite Hperm|].
  intros Heq.
  destruct (lookup_lt_is_Some_2 l d Hd) as [x Hx].
  pose proof (spec_reorder_lookup d j l x Hx Hj) as Hxj.
  rewrite Heq in Hxj.
  apply NoDup_fmap_1 in Hnodup.
  by pose proof (NoDup_lookup l d j x Hnodup Hx Hxj).
Qed.

Lemma C10_drop_permutes_witness :
  let A := mkOption "a" "A" in
  let B := mkOption "b" "B" in
  let C := mkOption "c" "C" in
  let f := mkField "f1" dropdown "Q" None false None None None in
  exists l',
    @FieldEditor.onDrop html_collaborators true 0
      (FieldEditor.setDraggedOptionIndex (Some 2)
         (FieldEditor.setEditedField (with_options (Some [A; B; C]) f)
            (@FieldEditor.init html_collaborators f None None 0)))
    = Next
        (FieldEditor.setDropTargetOptionIndex None
           (FieldEditor.setDraggedOptionIndex None
              (FieldEditor.setEditedField (with_options (Some l') f)
                 (@FieldEditor.init html_collaborators f None None 0))))
        [FieldChange (with_options (Some l') f)]
    /\ l' ≡ₚ [A; B; C].
Proof.
  intros A B C f.
  destruct (@C10_drop_permutes html_collaborators [A; B; C] 2 0 f 0
              FormField.init
              (@FieldEditor.init html_collaborators f None None 0))
    as (l' & _ & Heditor & Hperm & _).
  - lia.
  - simpl. lia.
  - simpl. lia.
  - unfold option_bearing. simpl. right. left. reflexivity.
  - exists l'. split; [exact Heditor | exact Hperm].
Defined.

(** ** The end of a drag *)

Section DragEnd.
Context `{Collaborators}.

(** In the editor every sequence of events that ends with the [dragend] of
    the option grip leaves both indices reset. *)
Lemma editor_run_drag_end (onFieldChange : bool) (es : list FieldEditor.Event)
    (st st' : FieldEditor.State) (calls : list Emitted) :
  FieldEditor.run onFieldChange st (es ++ [FieldEditor.DragEnd])
  = Next st' calls ->
  FieldEditor.draggedOptionIndex st' = None
  /\ FieldEditor.dropTargetOptionIndex st' = None.
Proof.
  revert st calls. induction es as [|e es IH]; intros st calls; simpl.
  - intros [= <- _]. done.
  - destruct (FieldEditor.step onFieldChange st e) as [st1 c1|]; [|done].
    destruct (FieldEditor.run onFieldChange st1 (es ++ [FieldEditor.DragEnd]))
      as [st2 c2|] eqn:Hrun; [|done].
    intros [= <- _]. by eapply IH.
Qed.

End DragEnd.

(** C9 (the code falls short of it): in the editor [onDragEnd] resets both
    indices and a drop that reorders does so too, and in the field view every
    drop resets both; but the option grip of the field view has no [dragend]
    listener, so that an option drag that ends without a drop on an option
    row leaves [draggedOptionIndex] at the dragged index. *)
Theorem C9_view_option_drag_end_keeps_index `{Collaborators}
    (editor : FieldEditor.State) (p : FormField.Props)
    (view : FormField.State) (i j : nat) :
  (let st' := (FieldEditor.onDragEnd editor).1 in
   FieldEditor.draggedOptionIndex st' = None
   /\ FieldEditor.dropTargetOptionIndex st' = None)
  /\ (let st' := (FormField.handleRankingOptionDrop p j view).1 in
      FormField.draggedOptionIndex st' = None
      /\ FormField.dropTargetOptionIndex st' = None)
  /\ (let st' :=
        (FormField.run p view
           [FormField.OptionDragStart i; FormField.OptionDragEnd]).1 in
      FormField.draggedOptionIndex st' = Some i)
  /\ (let st' :=
        (FormField.run p FormField.init
           [FormField.OptionDragStart 0; FormField.OptionDragEnd]).1 in
      st' = FormField.mkState false (Some 0) None).
Proof.
  split; [done|]. split; [|done].
  unfold FormField.handleRankingOptionDrop.
  destruct (FormField.draggedOptionIndex view) as [d|]; [|done].
  destruct (bool_decide (d = j)); [done|].
  by destruct (options (FormField.field p)).
Qed.

(** ** Telling the parent about option changes *)




(** ** The rich text of the question *)

Section RichText.
Context `{Collaborators}.

Lemma or_empty (s : string) : Js.or s "" = s.
Proof. by destruct s. Qed.

(** What [handleEditorChange] and [handleFormat] store. *)
Lemma syncFromEditor_stores (s : Surface) (prev : FormFieldType) :
  formattedQuestion (FieldEditor.syncFromEditor s prev) = Some (innerHTML s)
  /\ question (FieldEditor.syncFromEditor s prev) = textContent s.
Proof. unfold FieldEditor.syncFromEditor. simpl. by rewrite !or_empty. Qed.

(** What Save and Duplicate hand over, the surface being mounted. *)
Lemma latestField_stores (s : Surface) (st : FieldEditor.State) :
  let saved := FieldEditor.latestField (FieldEditor.setEditorRef (Some s) st) in
  formattedQuestion saved = Some (innerHTML s)
  /\ question saved
     = if Js.truthy (textContent s) then textContent s
       else question (FieldEditor.editedField st).
Proof. done. Qed.

End RichText.

(** C4 (as stated, refuted): a field is changed to the type image while the
    surface is empty, and saved: the saved question is "Image Question",
    while its [formattedQuestion] is the empty HTML of the surface, whose
    plain text is empty. *)
Lemma C4_save_question_out_of_sync :
  let f := mkField "f1" free_text "" None false None None None in
  let st := @FieldEditor.init html_collaborators f (Some "") None 0 in
  exists st' saved,
    @FieldEditor.run html_collaborators true st
      [FieldEditor.TypeChange image; FieldEditor.SaveClick]
    = Next st' [Save saved]
    /\ formattedQuestion saved = Some ""
    /\ question saved = "Image Question"
    /\ question saved ≠ plain_text (default "" (formattedQuestion saved)).
Proof.
  intros f st. eexists. eexists.
  split; [reflexivity|]. simpl. repeat split. discriminate.
Qed.

(** C4 (amended): the plain text of an HTML text being what the surface
    reports as its text content, after every change of the editor content and
    after every formatting command [question] is the plain text of
    [formattedQuestion]; in the field produced by Save, [formattedQuestion]
    is the HTML of the surface and [question] is its plain text when that is
    not empty, and the question of the working copy when it is empty. *)
Theorem C4_question_follows_surface `{Collaborators}
    (extractText : string -> string) (st : FieldEditor.State)
    (s : Surface) (command value : string) :
  (forall s0, textContent s0 = extractText (innerHTML s0)) ->
  let in_sync (f : FormFieldType) :=
    exists h, formattedQuestion f = Some h /\ question f = extractText h in
  let mounted := FieldEditor.setEditorRef (Some s) st in
  in_sync (FieldEditor.editedField (FieldEditor.onInput s st).1)
  /\ in_sync (FieldEditor.editedField
                (FieldEditor.handleFormat command value mounted).1)
  /\ (exists saved,
        (FieldEditor.handleSave mounted).2 = [Save saved]
        /\ formattedQuestion saved = Some (innerHTML s)
        /\ question saved
           = if Js.truthy (textContent s) then extractText (innerHTML s)
             else question (FieldEditor.editedField st)).
Proof.
  intros Hdom. cbv zeta.
  split; [|split].
  - exists (innerHTML s). unfold FieldEditor.onInput, FieldEditor.handleEditorChange.
    simpl. by rewrite !or_empty.
  - exists (innerHTML (applyFormatting command value s)).
    unfold FieldEditor.handleFormat. simpl. by rewrite !or_empty.
  - eexists. split; [done|].
    destruct (latestField_stores s st) as [Hhtml Htext].
    split; [done|]. rewrite Htext.
    destruct (Js.truthy (textContent s)); [apply Hdom | done].
Qed.

Lemma C4_question_follows_surface_witness :
  let f := mkField "f1" free_text "" None false None None None in
  let st := @FieldEditor.init html_collaborators f (Some "") None 0 in
  let st' := (@FieldEditor.handleFormat html_collaborators "bold" ""
                (@FieldEditor.setEditorRef html_collaborators
                   (Some "Your <i>name</i>") st)).1 in
  exists h,
    formattedQuestion (FieldEditor.editedField st') = Some h
    /\ question (FieldEditor.editedField st') = plain_text h.
Proof.
  intros f st st'.
  destruct (@C4_question_follows_surface html_collaborators plain_text st
              "Your <i>name</i>" "bold" "") as (_ & Hformat & _).
  - intros s0. reflexivity.
  - exact Hformat.
Defined.

(** C5 (as stated, refuted): the content of the surface is an image tag with
    an event handler, followed by text; the editor stores that HTML as it is,
    and the sanitizer would have removed the tag. *)
Lemma C5_raw_html_stored :
  let f := mkField "f1" free_text "" None false None None None in
  let st := @FieldEditor.init html_collaborators f (Some "") None 0 in
  let raw := "<img src=x onerror=alert(1)>Title" in
  let st' := (@FieldEditor.onInput html_collaborators raw st).1 in
  formattedQuestion (FieldEditor.editedField st') = Some raw
  /\ @sanitizeHtml html_collaborators raw = "Title"
  /\ formattedQuestion (FieldEditor.editedField st')
     ≠ Some (@sanitizeHtml html_collaborators raw).
Proof. repeat split. discriminate. Qed.

(** C5 (amended): on every change of the editor content, on every formatting
    command and in the field handed over by Save, the HTML stored in
    [formattedQuestion] is the HTML of the surface as it is; the sanitizer is
    applied where a stored, non-empty [formattedQuestion] is read: by the
    field view, by the preview, and when the editor is opened. *)
Theorem C5_html_stored_raw_sanitized_on_read `{Collaborators}
    (st : FieldEditor.State) (s : Surface) (command value : string)
    (c : ascii) (h : string) (f : FormFieldType) :
  let mounted := FieldEditor.setEditorRef (Some s) st in
  let stored := with_formattedQuestion (Some (String c h)) f in
  let tag t := if bool_decide (field_type f = section) then "h2" else t in
  formattedQuestion (FieldEditor.editedField (FieldEditor.onInput s st).1)
  = Some (innerHTML s)
  /\ formattedQuestion
       (FieldEditor.editedField
          (FieldEditor.handleFormat command value mounted).1)
     = Some (innerHTML (applyFormatting command value s))
  /\ (exists saved,
        (FieldEditor.handleSave mounted).2 = [Save saved]
        /\ formattedQuestion saved = Some (innerHTML s))
  /\ FormField.renderQuestion stored
     = FormField.InnerHTML (tag "p") (sanitizeHtml (String c h))
  /\ FormPreview.renderQuestion stored
     = FormField.InnerHTML (tag "div") (sanitizeHtml (String c h))
  /\ FieldEditor.initialContent stored
     = FieldEditor.SeedHTML (sanitizeHtml (String c h)).
Proof.
  cbv zeta.
  split.
  { unfold FieldEditor.onInput, FieldEditor.handleEditorChange. simpl.
    by rewrite or_empty. }
  split.
  { unfold FieldEditor.handleFormat. simpl. by rewrite or_empty. }
  split; [by eexists|].
  done.
Qed.

(** * Further properties of the components *)

(** ** The two splices *)

Section ReorderMore.
Context {A : Type}.
Implicit Types (l : list A) (x : A) (d j k : nat).

Lemma delete_insert_at j x l :
  j <= length l -> delete j (insert_at j x l) = l.
Proof.
  revert l; induction j as [|j IH]; intros [|y l] Hj; simpl in *;
    try done; try lia.
  f_equal. apply IH. lia.
Qed.

Lemma insert_at_delete d x l :
  l !! d = Some x -> insert_at d x (delete d l) = l.
Proof.
  revert l; induction d as [|d IH]; intros [|y l] Hx; simpl in *; try done.
  - by injection Hx as ->.
  - destruct l as [|z l]; [done|].
    change (delete (S d) (y :: z :: l)) with (y :: delete d (z :: l)).
    simpl. f_equal. by apply IH.
Qed.

Lemma delete_beyond d l : length l <= d -> delete d l = l.
Proof.
  revert d; induction l as [|y l IH]; intros [|d] Hd; simpl in *;
    try done; try lia.
  f_equal. apply IH. lia.
Qed.

End ReorderMore.

(** Where each element of the reordered array comes from: the dragged element
    is at the drop index, the elements between the two indices have moved by
    one place towards the index the drag started from, and all others are
    where they were.  In particular a drag downwards puts the element after
    the one that was at the drop index, and a drag upwards before it. *)
Theorem reorder_lookup_source {A} (l : list A) (d j k : nat) :
  d < length l -> j < length l -> k < length l ->
  reorder d j l !! k = Some (l !! source_index d j k).
Proof.
  intros Hd Hj Hk. rewrite reorder_unfold.
  assert (Hlen : length (Some <$> delete d l) = length l - 1).
  { rewrite length_fmap, length_delete; [done|].
    by apply lookup_lt_is_Some_2. }
  assert (Hin : forall i, i < length l ->
            exists y, l !! i = Some y) by (intros i Hi; by apply lookup_lt_is_Some_2).
  unfold source_index.
  destruct (decide (k < j)) as [Hkj|Hkj].
  - rewrite lookup_app_l by (rewrite length_take_le; lia).
    rewrite lookup_take_lt, list_lookup_fmap by lia.
    rewrite bool_decide_eq_false_2 by lia.
    destruct (decide (k < d)) as [Hkd|Hkd].
    + rewrite list_lookup_delete_lt by lia.
      rewrite bool_decide_eq_false_2 by lia.
      rewrite bool_decide_eq_false_2 by lia.
      destruct (Hin k) as [y ->]; [lia|]. done.
    + rewrite list_lookup_delete_ge by lia.
      rewrite bool_decide_eq_true_2 by lia.
      destruct (Hin (S k)) as [y ->]; [lia|]. done.
  - rewrite lookup_app_r by (rewrite length_take_le; lia).
    rewrite length_take_le by lia.
    destruct (decide (k = j)) as [->|Hne].
    + rewrite Nat.sub_diag, bool_decide_eq_true_2 by done. done.
    + rewrite bool_decide_eq_false_2 by done.
      rewrite bool_decide_eq_false_2 by lia.
      replace (k - j) with (S (k - j - 1)) by lia. simpl.
      rewrite lookup_drop, list_lookup_fmap.
      replace (j + (k - j - 1)) with (k - 1) by lia.
      destruct (decide (k <= d)) as [Hkd|Hkd].
      * rewrite list_lookup_delete_lt by lia.
        rewrite bool_decide_eq_true_2 by lia.
        destruct (Hin (k - 1)) as [y ->]; [lia|]. done.
      * rewrite list_lookup_delete_ge by lia.
        rewrite bool_decide_eq_false_2 by lia.
        replace (S (k - 1)) with k by lia.
        destruct (Hin k) as [y ->]; [lia|]. done.
Qed.

Lemma reorder_lookup_source_witness :
  reorder 0 2 ["a"; "b"; "c"; "d"] !! 1 = Some (Some "c").
Proof.
  apply (reorder_lookup_source ["a"; "b"; "c"; "d"] 0 2 1); simpl; lia.
Defined.

(** Dragging an element from [d] to [j] and then from [j] back to [d] gives
    the array it started from. *)
Theorem reorder_back_restores {A} (l : list A) (d j : nat) :
  d < length l -> j < length l ->
  exists l', defined (reorder d j l) = Some l'
             /\ defined (reorder j d l') = Some l.
Proof.
  intros Hd Hj. exists (spec_reorder d j l).
  split; [by apply reorder_defined|].
  destruct (lookup_lt_is_Some_2 l d Hd) as [x Hx].
  pose proof (spec_reorder_lookup d j l x Hx Hj) as Hxj.
  pose proof (spec_reorder_Permutation d j l) as Hperm.
  rewrite reorder_defined by (by rewrite Hperm).
  f_equal. unfold spec_reorder at 1. rewrite Hxj.
  unfold spec_reorder. rewrite Hx, !remove_at_delete.
  rewrite delete_insert_at by (rewrite length_delete by eauto; lia).
  by apply insert_at_delete.
Qed.

Lemma reorder_back_restores_witness :
  exists l', defined (reorder 3 1 ["a"; "b"; "c"; "d"]) = Some l'
             /\ defined (reorder 1 3 l') = Some ["a"; "b"; "c"; "d"].
Proof.
  apply (reorder_back_restores ["a"; "b"; "c"; "d"] 3 1); simpl; lia.
Defined.

(** A dragged index that is not an index of the options (a stale one: the
    list has become shorter since the drag started) makes the drop insert an
    undefined element at the drop position, clamped to the end: the array
    grows by one.  The field view hands that array to its parent and the
    editor stores it. *)
Theorem drop_with_stale_index `{Collaborators}
    (l : list Option_) (d j : nat) (f : FormFieldType) (index : nat)
    (view : FormField.State) (editor : FieldEditor.State) :
  d ≠ j -> length l <= d -> option_bearing (field_type f) ->
  let holed := ((Some <$> take j l) ++ None :: (Some <$> drop j l))%list in
  reorder d j l = holed
  /\ length holed = S (length l)
  /\ FormField.handleRankingOptionDrop
       (viewProps (with_options (Some l) f) index) j
       (FormField.setDraggedOptionIndex (Some d) view)
     = (FormField.mkState (FormField.isDragging view) None None,
        [FieldChangeHole (with_options (Some l) f) holed])
  /\ FieldEditor.onDrop true j
       (FieldEditor.setDraggedOptionIndex (Some d)
          (FieldEditor.setEditedField (with_options (Some l) f) editor))
     = Broken holed.
Proof.
  intros Hdj Hd Ht. cbv zeta.
  assert (Hre : reorder d j l
                = ((Some <$> take j l) ++ None :: (Some <$> drop j l))%list).
  { rewrite reorder_unfold, delete_beyond, (lookup_ge_None_2 l d) by done.
    by rewrite fmap_take, fmap_drop. }
  pose proof (reorder_out_of_range d j l Hd) as Hundef.
  split; [done|]. split.
  { rewrite length_app. cbn [length].
    rewrite !length_fmap, length_take, length_drop. lia. }
  split.
  - unfold FormField.handleRankingOptionDrop. simpl.
    rewrite bool_decide_eq_false_2 by done.
    by rewrite Hundef, Hre.
  - apply option_bearing_includes in Ht.
    unfold FieldEditor.onDrop, FieldEditor.needsOptions. simpl.
    rewrite Ht, bool_decide_eq_true_2 by done.
    by rewrite Hundef, Hre.
Qed.

Lemma drop_with_stale_index_witness :
  let A := mkOption "a" "A" in
  let B := mkOption "b" "B" in
  let f := mkField "f1" ranking "Q" None false None None None in
  FormField.handleRankingOptionDrop
    (viewProps (with_options (Some [A; B]) f) 0) 0
    (FormField.setDraggedOptionIndex (Some 3) FormField.init)
  = (FormField.mkState false None None,
     [FieldChangeHole (with_options (Some [A; B]) f)
        [None; Some A; Some B]]).
Proof.
  intros A B f.
  destruct (@drop_with_stale_index html_collaborators [A; B] 3 0 f 0
              FormField.init
              (@FieldEditor.init html_collaborators f None None 0))
    as (_ & _ & Hview & _).
  - lia.
  - simpl. lia.
  - unfold option_bearing. simpl. right. right. right. reflexivity.
  - exact Hview.
Defined.

(** ** More on the type change *)

(** Changing the type of a field that has an option to an option-bearing type
    changes the type and nothing else: the options keep their ids, values and
    order, no id is generated and the parent is not called. *)
Theorem type_change_keeps_existing_options `{Collaborators}
    (st : FieldEditor.State) (t : FieldType) (o : Option_) (l : list Option_) :
  option_bearing t ->
  options (FieldEditor.editedField st) = Some (o :: l) ->
  FieldEditor.handleTypeChange t st
  = (FieldEditor.setEditedField (with_type t (FieldEditor.editedField st)) st,
     [])
  /\ options (FieldEditor.editedField (FieldEditor.handleTypeChange t st).1)
     = Some (o :: l).
Proof.
  intros Ht Hopt. apply option_bearing_includes in Ht.
  assert (Hno : FieldEditor.noOptions (FieldEditor.editedField st) = false).
  { unfold FieldEditor.noOptions. by rewrite Hopt. }
  unfold FieldEditor.handleTypeChange.
  rewrite typeChange_keeps by done. simpl.
  split; [by destruct st|done].
Qed.

Lemma type_change_keeps_existing_options_witness :
  let A := mkOption "a" "A" in
  let B := mkOption "b" "B" in
  let f := mkField "f1" dropdown "Q" None true (Some [A; B]) None None in
  let st := @FieldEditor.init html_collaborators f None None 7 in
  options (FieldEditor.editedField (FieldEditor.handleTypeChange ranking st).1)
  = Some [A; B].
Proof.
  intros A B f st.
  apply (@type_change_keeps_existing_options html_collaborators st ranking A [B]).
  - unfold option_bearing. right. right. right. reflexivity.
  - reflexivity.
Defined.

(** A type change always sets the requested type and never touches the id,
    the required flag, the description or the formatted question of the
    field; the image URL changes only on a change to image, after which it is
    always a string: the previous one when that was not empty.  The question
    changes only on a change to image and on a change to section of a field
    with an options array. *)
Theorem type_change_frame `{Collaborators}
    (prev : FormFieldType) (t : FieldType) (n : nat) :
  let next := (FieldEditor.typeChange t prev n).1 in
  field_type next = t
  /\ field_id next = field_id prev
  /\ required next = required prev
  /\ description next = description prev
  /\ formattedQuestion next = formattedQuestion prev
  /\ imageUrl next
     = (if bool_decide (t = image)
        then Some (Js.or_undef (imageUrl prev) "") else imageUrl prev)
  /\ question next
     = (if bool_decide (t = image) then "Image Question"
        else if bool_decide (t = section) && FieldEditor.hasOptionsArray prev
        then "Section Title" else question prev)
  /\ n <= (FieldEditor.typeChange t prev n).2.
Proof.
  cbv zeta.
  destruct (Js.includes FieldEditor.optionBearing t) eqn:Ht.
  - assert (Hcases : bool_decide (t = image) = false
                     /\ bool_decide (t = section) = false).
    { rewrite includes_optionBearing in Ht. by destruct t. }
    destruct Hcases as [-> ->].
    destruct (FieldEditor.noOptions prev) eqn:Hno.
    + rewrite typeChange_defaults by done. simpl. repeat split; lia.
    + rewrite typeChange_keeps by done. simpl. repeat split; lia.
  - rewrite includes_optionBearing in Ht. destruct t; try done.
    + rewrite typeChange_section.
      destruct (FieldEditor.hasOptionsArray prev); simpl; repeat split; lia.
Qed.

(** Changing a field to an option-bearing type and then to section always
    ends with an empty options list and the question "Section Title",
    whatever the field was before; the second change generates no id. *)
Theorem option_bearing_then_section `{Collaborators}
    (st : FieldEditor.State) (t : FieldType) :
  option_bearing t ->
  let st1 := (FieldEditor.handleTypeChange t st).1 in
  let st2 := (FieldEditor.handleTypeChange section st1).1 in
  options (FieldEditor.editedField st2) = Some []
  /\ question (FieldEditor.editedField st2) = "Section Title"
  /\ field_type (FieldEditor.editedField st2) = section
  /\ FieldEditor.uuidCalls st2 = FieldEditor.uuidCalls st1.
Proof.
  intros Ht. cbv zeta.
  apply option_bearing_includes in Ht.
  assert (Harr : FieldEditor.hasOptionsArray
                   (FieldEditor.typeChange t (FieldEditor.editedField st)
                      (FieldEditor.uuidCalls st)).1 = true).
  { destruct (FieldEditor.noOptions (FieldEditor.editedField st)) eqn:Hno.
    - by rewrite typeChange_defaults.
    - rewrite typeChange_keeps by done. unfold FieldEditor.hasOptionsArray.
      simpl. unfold FieldEditor.noOptions in Hno.
      by destruct (options (FieldEditor.editedField st)). }
  unfold FieldEditor.handleTypeChange.
  destruct (FieldEditor.typeChange t (FieldEditor.editedField st)
              (FieldEditor.uuidCalls st)) as [f1 n1] eqn:Hfirst.
  simpl in *. rewrite typeChange_section, Harr. done.
Qed.

Lemma option_bearing_then_section_witness :
  let f := mkField "f1" free_text "Q" None false None None None in
  let st := @FieldEditor.init html_collaborators f None None 0 in
  let st1 := (FieldEditor.handleTypeChange checkbox st).1 in
  let st2 := (FieldEditor.handleTypeChange section st1).1 in
  options (FieldEditor.editedField st2) = Some []
  /\ question (FieldEditor.editedField st2) = "Section Title"
  /\ field_type (FieldEditor.editedField st2) = section
  /\ FieldEditor.uuidCalls st2 = FieldEditor.uuidCalls st1.
Proof.
  intros f st.
  apply (@option_bearing_then_section html_collaborators st checkbox).
  unfold option_bearing. right. right. left. reflexivity.
Defined.

(** ** The options of the edited field *)

Section OptionEditor.
Context `{Collaborators}.
Import FieldEditor.

Lemma option_ids_with_options (l : list Option_) (f : FormFieldType) :
  option_ids (with_options (Some l) f) = option_id <$> l.
Proof. done. Qed.

Lemma ids_generated_intro (st : State) (ids : list string) (n : nat) :
  option_ids (editedField st) = ids -> uuidCalls st = n ->
  NoDup ids ->
  (forall i, i ∈ ids -> exists k, k < n /\ i = uuid k) ->
  ids_generated st.
Proof.
  intros <- <- Hnodup Hin. split; [done|]. by apply Forall_forall.
Qed.

Lemma ids_generated_elim (st : State) :
  ids_generated st ->
  NoDup (option_ids (editedField st))
  /\ forall i, i ∈ option_ids (editedField st) ->
       exists k, k < uuidCalls st /\ i = uuid k.
Proof. intros [Hnodup Hall]. split; [done|]. by apply Forall_forall. Qed.

(** A state with the same ids in another order, or with some of them, and
    with no fewer calls of the generator. *)
Lemma ids_generated_fewer (st st' : State) :
  NoDup (option_ids (editedField st')) ->
  (forall i, i ∈ option_ids (editedField st') ->
             i ∈ option_ids (editedField st)) ->
  uuidCalls st <= uuidCalls st' ->
  ids_generated st -> ids_generated st'.
Proof.
  intros Hnodup Hsub Hcalls Hgen.
  apply ids_generated_elim in Hgen as [_ Hall].
  eapply ids_generated_intro; [done|done|done|].
  intros i Hi. destruct (Hall i (Hsub i Hi)) as (k & Hk & ->).
  exists k. split; [lia|done].
Qed.

Lemma ids_generated_same (st st' : State) :
  option_ids (editedField st') = option_ids (editedField st) ->
  uuidCalls st' = uuidCalls st ->
  ids_generated st -> ids_generated st'.
Proof.
  intros Hids Hcalls Hgen. apply (ids_generated_fewer st); [| |lia|done].
  - rewrite Hids. by destruct Hgen.
  - intros i. by rewrite Hids.
Qed.

(** A state with one more option, whose id is the result of a new call. *)
Lemma ids_generated_append (st st' : State) :
  Inj (=) (=) uuid ->
  option_ids (editedField st')
  = (option_ids (editedField st) ++ [uuid (uuidCalls st)])%list ->
  uuidCalls st' = S (uuidCalls st) ->
  ids_generated st -> ids_generated st'.
Proof.
  intros Hinj Hids Hcalls Hgen.
  apply ids_generated_elim in Hgen as [Hnodup Hall].
  eapply ids_generated_intro; [done|done| |].
  - apply NoDup_app. split; [done|]. split; [|apply NoDup_singleton].
    intros i Hi Hnew. apply list_elem_of_singleton in Hnew as ->.
    destruct (Hall _ Hi) as (k & Hk & Heq). apply Hinj in Heq. lia.
  - intros i Hi. apply elem_of_app in Hi as [Hi|Hi].
    + destruct (Hall i Hi) as (k & Hk & ->). exists k. split; [lia|done].
    + apply list_elem_of_singleton in Hi as ->.
      exists (uuidCalls st). split; [lia|done].
Qed.

Lemma option_ids_append (newOpt : Option_) (prev : FormFieldType) :
  option_ids (appendOption newOpt prev)
  = (option_ids prev ++ [option_id newOpt])%list.
Proof.
  unfold appendOption, option_ids. simpl. by rewrite fmap_app.
Qed.

Lemma option_ids_change (id value : string) (st : State) (ofc : bool) :
  option_ids (editedField (handleOptionChange ofc id value st).1)
  = option_ids (editedField st).
Proof.
  unfold handleOptionChange, option_ids. simpl.
  destruct (options (editedField st)) as [l|]; [|done]. simpl.
  rewrite <- list_fmap_compose. apply list_fmap_ext.
  intros i o _. simpl. by destruct (bool_decide (option_id o = id)).
Qed.

Lemma option_ids_delete (id : string) (st : State) (ofc : bool) :
  option_ids (editedField (handleDeleteOption ofc id st).1)
  = filter (fun i => i ≠ id) (option_ids (editedField st)).
Proof.
  unfold handleDeleteOption, option_ids. simpl.
  destruct (options (editedField st)) as [l|]; [|done]. simpl.
  induction l as [|o l IH]; [done|].
  rewrite fmap_cons, !filter_cons.
  destruct (decide (option_id o ≠ id)); [|done].
  rewrite fmap_cons. by f_equal.
Qed.

Lemma option_ids_typeChange (t : FieldType) (prev : FormFieldType) (n : nat) :
  let next := typeChange t prev n in
  (option_ids next.1 = [uuid n; uuid (S n)] /\ option_ids prev = []
   /\ next.2 = S (S n))
  \/ (option_ids next.1 = option_ids prev /\ next.2 = n)
  \/ (option_ids next.1 = [] /\ next.2 = n).
Proof.
  cbv zeta.
  destruct (Js.includes optionBearing t) eqn:Ht.
  - destruct (noOptions prev) eqn:Hno.
    + left. rewrite typeChange_defaults by done. simpl.
      split; [done|]. split; [|done].
      unfold option_ids. apply noOptions_spec in Hno as [->| ->]; done.
    + right. left. by rewrite typeChange_keeps.
  - rewrite includes_optionBearing in Ht.
    destruct t; try done; try (right; left; done).
    rewrite typeChange_section.
    destruct (hasOptionsArray prev); [right; right|right; left]; done.
Qed.

Lemma defined_reorder_Permutation (d j : nat) (l l' : list Option_) :
  defined (reorder d j l) = Some l' -> l' ≡ₚ l.
Proof.
  intros Hdef. destruct (decide (d < length l)) as [Hd|Hd].
  - rewrite reorder_defined in Hdef by done. injection Hdef as <-.
    apply spec_reorder_Permutation.
  - rewrite reorder_out_of_range in Hdef by lia. done.
Qed.

(** Every event of the editor keeps the ids of the options generated and
    pairwise different. *)
Lemma step_ids_generated (ofc : bool) (st st' : State) (e : Event)
    (calls : list Emitted) :
  Inj (=) (=) uuid -> ids_generated st ->
  step ofc st e = Next st' calls -> ids_generated st'.
Proof.
  intros Hinj Hgen Hstep.
  destruct e; simpl in Hstep; try (injection Hstep as <- _).
  - (* type change *)
    unfold handleTypeChange.
    pose proof (option_ids_typeChange type (editedField st) (uuidCalls st))
      as Hcases.
    destruct (typeChange type (editedField st) (uuidCalls st)) as [f n].
    simpl in *. destruct Hcases as [(Hids & Hprev & ->)|[[Hids ->]|[Hids ->]]].
    + apply (ids_generated_intro _ [uuid (uuidCalls st); uuid (S (uuidCalls st))]
               (S (S (uuidCalls st)))); [exact Hids|done| |].
      * apply NoDup_cons. split; [|apply NoDup_singleton].
        intros Hin. apply list_elem_of_singleton in Hin. apply Hinj in Hin. lia.
      * intros i Hi. apply elem_of_cons in Hi as [->|Hi].
        -- exists (uuidCalls st). split; [lia|done].
        -- apply list_elem_of_singleton in Hi as ->.
           exists (S (uuidCalls st)). split; [lia|done].
    + by apply (ids_generated_same st).
    + apply (ids_generated_fewer st); simpl; [ | | lia | done].
      * rewrite Hids. apply NoDup_nil_2.
      * intros i. rewrite Hids. by intros ?%elem_of_nil.
  - (* format *)
    unfold handleFormat. destruct (editorRef st); [|done].
    by apply (ids_generated_same st).
  - (* input *)
    by apply (ids_generated_same st).
  - (* required *)
    unfold handleToggleRequired.
    destruct (Js.includes [section; image] (field_type (editedField st)));
      [done|]. by apply (ids_generated_same st).
  - (* option change *)
    apply (ids_generated_same st);
      [exact (option_ids_change id value st ofc)|done|done].
  - (* add *)
    unfold handleAddOption.
    destruct (Js.trim_truthy (newOption st));
      (apply (ids_generated_append st); [done| |done|done]);
      simpl; by rewrite option_ids_append.
  - (* add other *)
    apply (ids_generated_append st); [done| |done|done].
    simpl. by rewrite option_ids_append.
  - (* delete *)
    apply (ids_generated_fewer st); [| |done|done].
    + change (NoDup (option_ids
                       (editedField (handleDeleteOption ofc id st).1))).
      rewrite option_ids_delete. apply NoDup_filter. by destruct Hgen.
    + intros i.
      change (i ∈ option_ids (editedField (handleDeleteOption ofc id st).1)
              -> i ∈ option_ids (editedField st)).
      rewrite option_ids_delete.
      by intros [_ ?]%list_elem_of_filter.
  - (* drag start *)
    by apply (ids_generated_same st).
  - (* drag over *)
    unfold onDragOver. destruct (needsOptions (editedField st)); [|done].
    destruct (draggedOptionIndex st) as [d|]; [|done].
    destruct (bool_decide (d ≠ i)); [|done].
    by apply (ids_generated_same st).
  - (* drag leave *)
    unfold onDragLeave. destruct (needsOptions (editedField st)); [|done].
    by apply (ids_generated_same st).
  - (* drop *)
    unfold onDrop in Hstep.
    destruct (needsOptions (editedField st)); [|by injection Hstep as <- _].
    destruct (draggedOptionIndex st) as [d|]; [|by injection Hstep as <- _].
    destruct (bool_decide (d ≠ i)); [|by injection Hstep as <- _].
    destruct (options (editedField st)) as [l|] eqn:Hopt;
      [|by injection Hstep as <- _].
    destruct (defined (reorder d i l)) as [l'|] eqn:Hdef; [|done].
    injection Hstep as <- _.
    apply defined_reorder_Permutation in Hdef.
    assert (Hids : option_id <$> l' ≡ₚ option_ids (editedField st)).
    { unfold option_ids. rewrite Hopt. simpl. by rewrite Hdef. }
    apply (ids_generated_fewer st); simpl; [| |done|done].
    + rewrite option_ids_with_options, Hids. by destruct Hgen.
    + intros k. by rewrite option_ids_with_options, Hids.
  - (* drag end *)
    by apply (ids_generated_same st).
  - (* save *)
    done.
Qed.

End OptionEditor.

(** Over any sequence of editor events the ids of the options stay pairwise
    different and generated: starting from a field whose option ids are
    pairwise different results of earlier calls of the identifier generator,
    which never returns an id twice, no type change, addition, deletion,
    update or reorder ever gives two options the same id; and the count of
    calls never goes down. *)
Theorem editor_option_ids_stay_unique `{Collaborators}
    (ofc : bool) (es : list FieldEditor.Event)
    (st st' : FieldEditor.State) (calls : list Emitted) :
  Inj (=) (=) uuid ->
  ids_generated st ->
  FieldEditor.run ofc st es = Next st' calls ->
  NoDup (option_ids (FieldEditor.editedField st'))
  /\ ids_generated st'.
Proof.
  intros Hinj. revert st calls.
  induction es as [|e es IH]; intros st calls Hgen Hrun; simpl in Hrun.
  - injection Hrun as <- _. split; [by destruct Hgen|done].
  - destruct (FieldEditor.step ofc st e) as [st1 c1|] eqn:Hstep; [|done].
    destruct (FieldEditor.run ofc st1 es) as [st2 c2|] eqn:Hrest; [|done].
    injection Hrun as <- _.
    apply (IH st1 c2); [|done].
    by apply (step_ids_generated ofc st st1 e c1).
Qed.

Lemma editor_option_ids_stay_unique_witness :
  let f := mkField "f1" free_text "Q" None false None None None in
  let st := @FieldEditor.init html_collaborators f (Some "Q") None 0 in
  exists st' calls,
    @FieldEditor.run html_collaborators true st
      [FieldEditor.TypeChange ranking; FieldEditor.AddOption;
       FieldEditor.DeleteOption "id-0"; FieldEditor.AddOtherOption;
       FieldEditor.DragStart 2; FieldEditor.Drop 0; FieldEditor.DragEnd]
    = Next st' calls
    /\ option_ids (FieldEditor.editedField st') = ["id-3"; "id-1"; "id-2"]
    /\ NoDup (option_ids (FieldEditor.editedField st')).
Proof.
  intros f st. eexists. eexists. split; [reflexivity|]. split; [reflexivity|].
  refine (proj1 (@editor_option_ids_stay_unique html_collaborators true
                   [FieldEditor.TypeChange ranking; FieldEditor.AddOption;
                    FieldEditor.DeleteOption "id-0"; FieldEditor.AddOtherOption;
                    FieldEditor.DragStart 2; FieldEditor.Drop 0;
                    FieldEditor.DragEnd]
                   st _ _ numbered_id_inj _ eq_refl)).
  split; [apply NoDup_nil_2 | apply Forall_nil_2].
Defined.

Section Session.
Context `{Collaborators}.
Import FieldEditor.


End Session.



Section OptionEditing.
Context `{Collaborators}.
Import FieldEditor.

Lemma filter_all {B} (P : B -> Prop) `{forall x, Decision (P x)} (l : list B) :
  Forall P l -> filter P l = l.
Proof.
  induction 1 as [|x l Hx _ IH]; [done|].
  rewrite filter_cons_True by done. by f_equal.
Qed.

Lemma with_options_same (f : FormFieldType) : with_options (options f) f = f.
Proof. by destruct f. Qed.

End OptionEditing.

(** Deleting an option removes exactly the options with the given id and
    keeps the others in their order; with an id that no option has (or on a
    field without options) the field stays as it is.  No minimum is kept: the
    last option can be deleted. *)
Theorem delete_option_removes_by_id `{Collaborators}
    (ofc : bool) (id : string) (st : FieldEditor.State) :
  let before := default [] (options (FieldEditor.editedField st)) in
  let st' := (FieldEditor.handleDeleteOption ofc id st).1 in
  let after := default [] (options (FieldEditor.editedField st')) in
  (forall o, o ∈ after <-> o ∈ before /\ option_id o ≠ id)
  /\ after `sublist_of` before
  /\ (id ∉ option_ids (FieldEditor.editedField st) ->
      FieldEditor.editedField st' = FieldEditor.editedField st)
  /\ (forall o, before = [o] -> option_id o = id ->
      options (FieldEditor.editedField st') = Some []).
Proof.
  cbv zeta. unfold FieldEditor.handleDeleteOption, option_ids. simpl.
  destruct (options (FieldEditor.editedField st)) as [l|] eqn:Hopt; simpl.
  - split.
    { intros o. rewrite list_elem_of_filter. tauto. }
    split; [apply sublist_filter|].
    split.
    + intros Hid. rewrite filter_all.
      * rewrite <- Hopt. apply with_options_same.
      * apply Forall_forall. intros o Ho Heq. apply Hid.
        apply list_elem_of_fmap. by exists o.
    + intros o -> Hid. rewrite filter_cons_False; [done|]. by intros Hne.
  - split; [intros o; split; [by intros ?%elem_of_nil|by intros [?%elem_of_nil _]]|].
    split; [done|].
    split; [|done].
    intros _. rewrite <- Hopt. apply with_options_same.
Qed.

(** Updating the value of an option keeps the number, the ids and the order
    of the options and gives the new value to every option with the given
    id, leaving the other options as they are; with an id that no option has
    the field stays as it is. *)
Theorem option_change_updates_value `{Collaborators}
    (ofc : bool) (id value : string) (st : FieldEditor.State) :
  let before := default [] (options (FieldEditor.editedField st)) in
  let st' := (FieldEditor.handleOptionChange ofc id value st).1 in
  let after := default [] (options (FieldEditor.editedField st')) in
  length after = length before
  /\ option_id <$> after = option_id <$> before
  /\ (forall i o, before !! i = Some o ->
        after !! i
        = Some (if bool_decide (option_id o = id) then mkOption id value
                else o))
  /\ (id ∉ option_ids (FieldEditor.editedField st) ->
      FieldEditor.editedField st' = FieldEditor.editedField st).
Proof.
  cbv zeta.
  pose proof (option_ids_change id value st ofc) as Hids.
  unfold option_ids in Hids.
  split; [|split; [exact Hids|]].
  { rewrite <- (length_fmap option_id), Hids. apply length_fmap. }
  unfold FieldEditor.handleOptionChange, option_ids. simpl.
  destruct (options (FieldEditor.editedField st)) as [l|] eqn:Hopt; simpl.
  - split.
    + intros i o Hi. rewrite list_lookup_fmap, Hi. simpl.
      destruct (bool_decide (option_id o = id)) eqn:Heq; [|done].
      apply bool_decide_eq_true_1 in Heq. by rewrite Heq.
    + intros Hid.
      erewrite (list_fmap_ext _ (@Datatypes.id Option_) l).
      * rewrite list_fmap_id, <- Hopt. apply with_options_same.
      * intros i o Hi. simpl.
        rewrite bool_decide_eq_false_2; [done|].
        intros Heq. apply Hid. apply list_elem_of_fmap. exists o.
        split; [done|]. by eapply list_elem_of_lookup_2.
  - split; [by intros i o ?|].
    intros _. rewrite <- Hopt. apply with_options_same.
Qed.

(** Adding an option while the input for a new option is blank appends a
    placeholder "Option N" with N one more than the number of options there
    are, under a newly generated id: two additions in a row give two
    different placeholders, and an addition to an emptied list gives
    "Option 1". *)
Theorem add_option_placeholder `{Collaborators}
    (ofc : bool) (st : FieldEditor.State) :
  Js.trim_truthy (FieldEditor.newOption st) = false ->
  let before := default [] (options (FieldEditor.editedField st)) in
  let n := FieldEditor.uuidCalls st in
  let st1 := (FieldEditor.handleAddOption ofc st).1 in
  let st2 := (FieldEditor.handleAddOption ofc st1).1 in
  let first := mkOption (uuid n) ("Option " +:+ pretty (length before + 1)) in
  let second :=
    mkOption (uuid (S n)) ("Option " +:+ pretty (length before + 2)) in
  options (FieldEditor.editedField st1) = Some (before ++ [first])%list
  /\ options (FieldEditor.editedField st2)
     = Some (before ++ [first; second])%list
  /\ option_value first ≠ option_value second
  /\ FieldEditor.uuidCalls st2 = S (S n).
Proof.
  intros Hblank. cbv zeta.
  assert (Hst1 : FieldEditor.handleAddOption ofc st
            = (FieldEditor.setUuidCalls (S (FieldEditor.uuidCalls st))
                 (FieldEditor.setEditedField
                    (FieldEditor.appendOption
                       (mkOption (uuid (FieldEditor.uuidCalls st))
                          ("Option " +:+
                           pretty (length (default []
                              (options (FieldEditor.editedField st))) + 1)))
                       (FieldEditor.editedField st)) st),
               FieldEditor.mirrorIfRanking ofc (FieldEditor.editedField st)
                 (FieldEditor.appendOption
                    (mkOption (uuid (FieldEditor.uuidCalls st))
                       ("Option " +:+
                        pretty (length (default []
                           (options (FieldEditor.editedField st))) + 1)))
                    (FieldEditor.editedField st)))).
  { unfold FieldEditor.handleAddOption. by rewrite Hblank. }
  rewrite Hst1. cbn [fst].
  split; [done|]. split.
  - unfold FieldEditor.handleAddOption at 1.
    cbn [FieldEditor.newOption FieldEditor.setUuidCalls
         FieldEditor.setEditedField]. rewrite Hblank.
    cbn [fst FieldEditor.editedField FieldEditor.setUuidCalls
         FieldEditor.setEditedField FieldEditor.uuidCalls
         FieldEditor.appendOption with_options options default].
    unfold id. rewrite length_app. cbn [length].
    rewrite <- app_assoc. cbn [app].
    by rewrite <- Nat.add_assoc.
  - split.
    + cbn [option_value].
      generalize (length (default [] (options (FieldEditor.editedField st)))).
      intros k Heq. simpl in Heq.
      injection Heq as Heq.
      assert (k + 1 = k + 2) by (by apply (inj pretty)). lia.
    + unfold FieldEditor.handleAddOption.
      cbn [FieldEditor.newOption FieldEditor.setUuidCalls
           FieldEditor.setEditedField]. by rewrite Hblank.
Qed.

Lemma add_option_placeholder_witness :
  let f := mkField "f1" checkbox "Q" None false (Some []) None None in
  let st := @FieldEditor.init html_collaborators f None None 0 in
  let st1 := (FieldEditor.handleAddOption false st).1 in
  options (FieldEditor.editedField st1) = Some [mkOption "id-0" "Option 1"].
Proof.
  intros f st.
  destruct (@add_option_placeholder html_collaborators false st eq_refl)
    as (Hfirst & _).
  exact Hfirst.
Defined.

(** Clicking the required toggle twice gives back the state of the editor,
    for every field type, and the toggle never calls the parent. *)
Theorem toggle_required_twice `{Collaborators} (st : FieldEditor.State) :
  (FieldEditor.handleToggleRequired (FieldEditor.handleToggleRequired st).1).1
  = st
  /\ (FieldEditor.handleToggleRequired st).2 = [].
Proof.
  unfold FieldEditor.handleToggleRequired.
  destruct (Js.includes [section; image]
              (field_type (FieldEditor.editedField st))) eqn:Hspecial; simpl.
  - by rewrite Hspecial.
  - rewrite Hspecial. simpl. rewrite negb_involutive.
    split; [|done]. destruct st as [f ? ? ? ? ? ?]. by destruct f.
Qed.

(** ** Saving and opening again *)

(** The default title that a change to the type image gives the question
    reaches the saved field only when the editing surface has no text: Save
    takes the text of the surface whenever there is some.  The saved field is
    an image field with an image URL and the HTML of the surface. *)
Theorem image_title_saved_only_for_empty_surface `{Collaborators}
    (st : FieldEditor.State) (s : Surface) :
  let st1 :=
    (FieldEditor.handleTypeChange image
       (FieldEditor.setEditorRef (Some s) st)).1 in
  exists saved,
    (FieldEditor.handleSave st1).2 = [Save saved]
    /\ question saved
       = (if Js.truthy (textContent s) then textContent s
          else "Image Question")
    /\ field_type saved = image
    /\ formattedQuestion saved = Some (innerHTML s)
    /\ is_Some (imageUrl saved).
Proof. cbv zeta. eexists. split; [done|]. by repeat split. Qed.

(** Opening the editor on a field that was saved with a non-empty surface
    seeds the surface with the sanitized HTML that was saved, whatever the
    plain question is; saved with an empty surface, the field seeds the
    surface with its question, unless that is empty or the placeholder text
    "Type your question here". *)
Theorem saved_field_reopens_sanitized `{Collaborators}
    (st : FieldEditor.State) (s : Surface) :
  let saved := FieldEditor.latestField (FieldEditor.setEditorRef (Some s) st) in
  let q := question saved in
  FieldEditor.initialContent saved
  = if Js.truthy (innerHTML s)
    then FieldEditor.SeedHTML (sanitizeHtml (innerHTML s))
    else if bool_decide (q = "") || bool_decide (q = "Type your question here")
         then FieldEditor.SeedText ""
         else FieldEditor.SeedText q.
Proof.
  cbv zeta. unfold FieldEditor.initialContent, FieldEditor.latestField.
  cbn [FieldEditor.editorRef FieldEditor.setEditorRef formattedQuestion
       with_description with_question with_formattedQuestion default
       question from_option].
  unfold id.
  destruct (Js.truthy (innerHTML s)); [done|].
  generalize (Js.or (textContent s)
                (question (FieldEditor.editedField
                             (FieldEditor.setEditorRef (Some s) st)))).
  intros [|c q]; [done|]. simpl.
  by destruct (bool_decide (String c q = "Type your question here")).
Qed.

(** ** Drags that do not move an option *)

(** A drop with no active drag, and a drop of an option on itself, call no
    callback and leave the options as they are.  The field view resets both
    indices then; the editor leaves its state untouched, the dragged index
    included, until the drag ends. *)
Theorem drop_without_move `{Collaborators}
    (p : FormField.Props) (view : FormField.State)
    (ofc : bool) (editor : FieldEditor.State) (j : nat) :
  FormField.handleRankingOptionDrop p j
    (FormField.setDraggedOptionIndex None view)
  = (FormField.mkState (FormField.isDragging view) None None, [])
  /\ FormField.handleRankingOptionDrop p j
       (FormField.setDraggedOptionIndex (Some j) view)
     = (FormField.mkState (FormField.isDragging view) None None, [])
  /\ FieldEditor.onDrop ofc j (FieldEditor.setDraggedOptionIndex None editor)
     = Next (FieldEditor.setDraggedOptionIndex None editor) []
  /\ FieldEditor.onDrop ofc j
       (FieldEditor.setDraggedOptionIndex (Some j) editor)
     = Next (FieldEditor.setDraggedOptionIndex (Some j) editor) [].
Proof.
  split; [done|]. split.
  { unfold FormField.handleRankingOptionDrop. simpl.
    by rewrite bool_decide_eq_true_2. }
  unfold FieldEditor.onDrop. simpl.
  destruct (FieldEditor.needsOptions (FieldEditor.editedField editor));
    [|done].
  by rewrite bool_decide_eq_false_2 by (intros Hne; by apply Hne).
Qed.

(** In the field view, after hovering over a row the drop target is that row
    when a drag is active from another row, and none otherwise: the dragged
    row itself is never the target, and hovering over it clears the target.
    The dragged index is not changed and the parent is not called. *)
Theorem view_hover_target `{Collaborators}
    (view : FormField.State) (i : nat) :
  let r := FormField.handleRankingOptionDragOver i view in
  FormField.draggedOptionIndex r.1 = FormField.draggedOptionIndex view
  /\ r.2 = []
  /\ FormField.dropTargetOptionIndex r.1
     = match FormField.draggedOptionIndex view with
       | Some d => if bool_decide (d = i) then None else Some i
       | None => None
       end
  /\ (forall k, ~ (FormField.dropTargetOptionIndex r.1 = Some k
                   /\ FormField.draggedOptionIndex r.1 = Some k)).
Proof.
  cbv zeta. unfold FormField.handleRankingOptionDragOver.
  destruct (FormField.draggedOptionIndex view) as [d|] eqn:Hd.
  - destruct (bool_decide (d = i)) eqn:Hdi; simpl; rewrite ?Hd;
      repeat split; try done.
    + by intros k [? _].
    + intros k [[= <-] [= ->]]. by apply bool_decide_eq_false_1 in Hdi.
  - simpl. rewrite Hd. repeat split; try done. by intros k [? _].
Qed.

Section Hover.
Context `{Collaborators}.
Import FieldEditor.

Lemma editor_hover_step (ofc : bool) (st : State) (e : Event) (d : nat) :
  is_hover e = true ->
  draggedOptionIndex st = Some d -> dropTargetOptionIndex st ≠ Some d ->
  exists st', step ofc st e = Next st' []
    /\ editedField st' = editedField st
    /\ draggedOptionIndex st' = Some d
    /\ dropTargetOptionIndex st' ≠ Some d.
Proof.
  intros Hhover Hd Htarget. destruct e; try done; simpl.
  - unfold onDragOver. rewrite Hd.
    destruct (needsOptions (editedField st)); [|by eexists].
    destruct (bool_decide (d ≠ i)) eqn:Hdi; [|by eexists].
    eexists. split; [done|]. simpl. repeat split; try done.
    intros [= ->]. by apply bool_decide_eq_true_1 in Hdi.
  - unfold onDragLeave.
    destruct (needsOptions (editedField st)); by eexists.
Qed.

End Hover.

(** In the editor, hovering over rows and leaving them during a drag never
    changes the edited field, never calls the parent, keeps the dragged index
    and never makes the dragged row the drop target. *)
Theorem editor_hover_keeps_field `{Collaborators}
    (ofc : bool) (es : list FieldEditor.Event) (st : FieldEditor.State)
    (d : nat) :
  forallb is_hover es = true ->
  FieldEditor.draggedOptionIndex st = Some d ->
  FieldEditor.dropTargetOptionIndex st ≠ Some d ->
  exists st', FieldEditor.run ofc st es = Next st' []
    /\ FieldEditor.editedField st' = FieldEditor.editedField st
    /\ FieldEditor.draggedOptionIndex st' = Some d
    /\ FieldEditor.dropTargetOptionIndex st' ≠ Some d.
Proof.
  revert st. induction es as [|e es IH]; intros st Hhover Hd Htarget.
  - by exists st.
  - simpl in Hhover. apply andb_prop in Hhover as [He Hes].
    destruct (editor_hover_step ofc st e d He Hd Htarget)
      as (st1 & Hstep & Hfield1 & Hd1 & Ht1).
    destruct (IH st1 Hes Hd1 Ht1) as (st2 & Hrun & Hfield2 & Hd2 & Ht2).
    exists st2. simpl. rewrite Hstep, Hrun. simpl.
    split; [done|]. split; [congruence|done].
Qed.

Lemma editor_hover_keeps_field_witness :
  let A := mkOption "a" "A" in
  let B := mkOption "b" "B" in
  let f := mkField "f1" ranking "Q" None false (Some [A; B]) None None in
  let st :=
    FieldEditor.setDraggedOptionIndex (Some 0)
      (@FieldEditor.init html_collaborators f None None 0) in
  exists st',
    @FieldEditor.run html_collaborators true st
      [FieldEditor.DragOver 1; FieldEditor.DragOver 0; FieldEditor.DragLeave]
    = Next st' []
    /\ FieldEditor.editedField st' = f
    /\ FieldEditor.draggedOptionIndex st' = Some 0
    /\ FieldEditor.dropTargetOptionIndex st' ≠ Some 0.
Proof.
  intros A B f st.
  apply (@editor_hover_keeps_field html_collaborators true
           [FieldEditor.DragOver 1; FieldEditor.DragOver 0;
            FieldEditor.DragLeave] st 0).
  - reflexivity.
  - reflexivity.
  - discriminate.
Defined.

(** In the editor, whatever happened before, the end of the option drag
    leaves both drag indices unset. *)
Theorem editor_drag_end_resets_after_anything `{Collaborators}
    (ofc : bool) (es : list FieldEditor.Event)
    (st st' : FieldEditor.State) (calls : list Emitted) :
  FieldEditor.run ofc st (es ++ [FieldEditor.DragEnd]) = Next st' calls ->
  FieldEditor.draggedOptionIndex st' = None
  /\ FieldEditor.dropTargetOptionIndex st' = None.
Proof. apply editor_run_drag_end. Qed.

Lemma editor_drag_end_resets_after_anything_witness :
  let A := mkOption "a" "A" in
  let B := mkOption "b" "B" in
  let f := mkField "f1" ranking "Q" None false (Some [A; B]) None None in
  let st := @FieldEditor.init html_collaborators f None None 0 in
  exists st' calls,
    @FieldEditor.run html_collaborators true st
      ([FieldEditor.DragStart 0; FieldEditor.DragOver 1; FieldEditor.Drop 0]
       ++ [FieldEditor.DragEnd])
    = Next st' calls
    /\ FieldEditor.draggedOptionIndex st' = None
    /\ FieldEditor.dropTargetOptionIndex st' = None.
Proof.
  intros A B f st. eexists. eexists. split; [reflexivity|].
  exact (@editor_drag_end_resets_after_anything html_collaborators true
           [FieldEditor.DragStart 0; FieldEditor.DragOver 1; FieldEditor.Drop 0]
           st _ _ eq_refl).
Defined.

(** ** The preview *)

Section Preview.
Import FormPreviewAnswers.


Lemma numberFields_lookup (c i : nat) (fields : list FormFieldType)
    (f : FormFieldType) :
  fields !! i = Some f ->
  numberFields c fields !! i
  = Some (if Js.includes [section; image] (field_type f) then None
          else Some (S (c + length (filter numbered (take i fields))))).
Proof.
  revert c i. induction fields as [|g fields IH]; intros c [|i] Hi;
    try done; simpl in Hi.
  - injection Hi as ->. simpl.
    destruct (Js.includes [section; image] (field_type f)); simpl;
      [done|]. by rewrite Nat.add_0_r.
  - cbn [numberFields take].
    destruct (Js.includes [section; image] (field_type g)) eqn:Hg; cbn [negb].
    + rewrite filter_cons_False by (unfold numbered; by rewrite Hg).
      exact (IH c i Hi).
    + rewrite filter_cons_True by done.
      cbn [length]. rewrite Nat.add_succ_r. exact (IH (S c) i Hi).
Qed.



End Preview.


(** The number of a question in the preview is one more than the count of
    numbered fields before it, while the field view shows its position in
    the whole list, [index + 1]: the two agree only as long as no section or
    image comes before the field, and the preview's number is never the
    larger.  A section or an image has a number in neither. *)
Theorem preview_number_of_field (fields : list FormFieldType) (i : nat)
    (f : FormFieldType) :
  fields !! i = Some f ->
  let before := length (filter numbered (take i fields)) in
  FormPreviewAnswers.currentNumbers fields !! i
  = Some (if Js.includes [section; image] (field_type f) then None
          else Some (S before))
  /\ FormFieldLabels.shownNumber f i
     = (if Js.includes [section; image] (field_type f) then None
        else Some (i + 1))
  /\ before <= i.
Proof.
  intros Hi. cbv zeta. split; [|split].
  - unfold FormPreviewAnswers.currentNumbers.
    by rewrite (numberFields_lookup 0 i fields f Hi).
  - unfold FormFieldLabels.shownNumber, FormFieldLabels.shouldShowNumber.
    rewrite includes_special. by destruct (field_type f).
  - etrans; [apply length_filter|]. rewrite length_take. lia.
Qed.

Lemma preview_number_of_field_witness :
  let q1 := mkField "f1" free_text "Q1" None false None None None in
  let s1 := mkField "f2" section "S" None false None None None in
  let q2 := mkField "f3" checkbox "Q2" None false (Some []) None None in
  FormPreviewAnswers.currentNumbers [q1; s1; q2] !! 2 = Some (Some 2)
  /\ FormFieldLabels.shownNumber q2 2 = Some 3
  /\ 1 <= 2.
Proof.
  intros q1 s1 q2.
  apply (preview_number_of_field [q1; s1; q2] 2 q2). reflexivity.
Defined.



(** ** The header *)

(** Starting to edit the description, typing a text and pressing any key
    leaves the typed text as the description: Escape does not bring the old
    text back.  The editing ends on Escape and on Enter with the control key,
    and on no other key, plain Enter included; with an empty description the
    header shows its placeholder. *)
Theorem header_keys_keep_description
    (old value : string) (k : FormHeader.KeyboardEvent) :
  let st :=
    FormHeader.run (FormHeader.mkState false old)
      [FormHeader.Click; FormHeader.Change value; FormHeader.KeyDown k] in
  FormHeader.description st = value
  /\ FormHeader.isEditingDescription st
     = negb (bool_decide (FormHeader.key k = "Escape")
             || (bool_decide (FormHeader.key k = "Enter")
                 && FormHeader.ctrlKey k))
  /\ FormHeader.shownDescription st
     = (if bool_decide (value = "") then "Add a description (optional)"
        else value).
Proof.
  cbv zeta. unfold FormHeader.run. simpl.
  unfold FormHeader.handleDescriptionKeyDown, FormHeader.shownDescription.
  destruct (bool_decide (FormHeader.key k = "Escape")); simpl.
  - split; [done|]. split; [done|]. by destruct value.
  - destruct (bool_decide (FormHeader.key k = "Enter") && FormHeader.ctrlKey k);
      simpl; (split; [done|]); (split; [done|]); by destruct value.
Qed.

(** No event other than a change of the text area changes the description of
    the header, and a change is taken only while the description is being
    edited. *)
Theorem header_description_changes_only_by_typing
    (st : FormHeader.State) (e : FormHeader.Event) :
  FormHeader.description (FormHeader.step st e)
  = match e with
    | FormHeader.Change value =>
        if FormHeader.isEditingDescription st then value
        else FormHeader.description st
    | _ => FormHeader.description st
    end.
Proof.
  destruct e as [|value|k|]; simpl;
    destruct (FormHeader.isEditingDescription st); try done.
  unfold FormHeader.handleDescriptionKeyDown.
  destruct (bool_decide (FormHeader.key k = "Escape")); [done|].
  by destruct (bool_decide (FormHeader.key k = "Enter") && FormHeader.ctrlKey k).
Qed.

(** ** Labels *)

(** Each of the two components gives the seven field types seven different
    labels; the two agree on every type but multiple choice, which the editor
    spells "Multiple choice" and the field view "Multiple Choice".  The
    editor marks the options of a dropdown with no symbol. *)
Theorem type_labels_distinct (t1 t2 : FieldType) :
  (FieldEditorLabels.getFieldTypeName t1 = FieldEditorLabels.getFieldTypeName t2
   <-> t1 = t2)
  /\ (FormFieldLabels.getFieldTypeName t1 = FormFieldLabels.getFieldTypeName t2
      <-> t1 = t2)
  /\ (FieldEditorLabels.getFieldTypeName t1 = FormFieldLabels.getFieldTypeName t1
      <-> t1 ≠ multiple_choice).
Proof.
  split; [|split]; (split; [|try by intros ->]);
    destruct t1; try destruct t2; simpl; try done.
Qed.
